(** * PhotoLayer: the render orchestrator of the detail view

    A shallow embedding of [src/app/ui/detail/PhotoLayer.tsx].  The React
    component is modelled as a record of its private fields living in a
    [World] that also holds the objects the component shares with its
    environment: the [PhotoCanvas] instances (held by [this.canvas], by the
    texture cache and by the closure of the deferred-hide timeout) and the
    timeouts that are pending.  Every call the component makes on a
    collaborator is emitted as an [Event], so that one run of a method yields
    both the next world and the ordered list of calls it made. *)

From stdpp Require Import base decidable option numbers list strings.

Open Scope Z_scope.

(** ** Values *)

(** [Size] of common/util/GeometryTypes: [{ width, height }]. *)
Record Size := mkSize { width : Z; height : Z }.

(** [Rect] of common/util/GeometryTypes. *)
Record Rect := mkRect { rect_x : Z; rect_y : Z; rect_width : Z; rect_height : Z }.

(** A gl-matrix [mat4]; the component only hands it on. *)
Definition mat4 : Type := list Z.

(** [Texture] of app/renderer/WebGLCanvas: an object with [width] and
    [height]. *)
Record Texture := mkTexture { tex_width : Z; tex_height : Z }.

(** Modelled from the spec: the [TextureError] type of ./TextureCache is not
    among the sources; section 7 of the specification lists its variants.
    Every variant is a truthy value, as [if (textureError)] expects. *)
Inductive TextureError :=
| not_found | decode_failure | unsupported_format | upload_failure.

(** [PhotoLayerLoadingState = 'loading' | 'done' | TextureError]. *)
Inductive PhotoLayerLoadingState :=
| loading
| done
| failed (e : TextureError).

(** A JavaScript object seen through a reference: [!==] on two objects
    compares [addr], never [deref]. *)
Record ref (A : Type) := mkRef { addr : nat; deref : A }.
Arguments mkRef {A} _ _.
Arguments addr {A} _.
Arguments deref {A} _.

(** [CameraMetrics] of common/util/CameraMetrics, the four fields the
    component reads. *)
Record CameraMetrics := mkCameraMetrics {
  canvasSize : Size;
  projectionMatrix : mat4;
  cameraMatrix : mat4;
  cropRect : Rect }.

(** [DetailMode] is a union of string literals; the component compares it
    with ['view'] only. *)
Definition DetailMode : Type := string.

(** [Props] without [className] and [style], which only [render] reads.  The
    two observers [onLoadingStateChange] and [onTextureChange] are the events
    [OnLoadingStateChange] and [OnTextureChange] below. *)
Record Props := mkProps {
  mode : DetailMode;
  bodySize : ref Size;
  imagePath : string;
  imagePathPrev : option string;
  imagePathNext : option string;
  cameraMetrics : option (ref CameraMetrics) }.

(** [Partial<Props>]: every field may be [undefined] ([None]).  A field that
    is nullable in [Props] is doubly optional: [None] is [undefined],
    [Some None] is [null]. *)
Record PartialProps := mkPartialProps {
  prev_mode : option DetailMode;
  prev_bodySize : option (ref Size);
  prev_imagePath : option string;
  prev_imagePathPrev : option (option string);
  prev_imagePathNext : option (option string);
  prev_cameraMetrics : option (option (ref CameraMetrics)) }.

(** The object literal [{}] passed by [componentDidMount]. *)
Definition emptyProps : PartialProps := mkPartialProps None None None None None None.

(** A full [Props] passed where [Partial<Props>] is expected. *)
Definition asPartial (p : Props) : PartialProps :=
  mkPartialProps (Some (mode p)) (Some (bodySize p)) (Some (imagePath p))
    (Some (imagePathPrev p)) (Some (imagePathNext p)) (Some (cameraMetrics p)).

#[global] Instance Size_eq_dec : EqDecision Size.
Proof. solve_decision. Defined.
#[global] Instance Texture_eq_dec : EqDecision Texture.
Proof. solve_decision. Defined.
#[global] Instance TextureError_eq_dec : EqDecision TextureError.
Proof. solve_decision. Defined.
#[global] Instance PhotoLayerLoadingState_eq_dec : EqDecision PhotoLayerLoadingState.
Proof. solve_decision. Defined.

(** *** Strict inequality [!==] *)

(** [a !== b] on two objects. *)
Definition differentObject {A} (a b : ref A) : bool :=
  negb (bool_decide (addr a = addr b)).

(** [a !== b] where [a] is an object and [b] an object or [undefined]. *)
Definition differentFromOptional {A} (a : ref A) (b : option (ref A)) : bool :=
  match b with
  | Some b' => differentObject a b'
  | None => true
  end.

(** [a !== b] where [a] is an object or [null] and [b] an object, [null] or
    [undefined]. *)
Definition differentNullable {A} (a : option (ref A)) (b : option (option (ref A))) : bool :=
  match a, b with
  | Some a', Some (Some b') => differentObject a' b'
  | None, Some None => false
  | _, _ => true
  end.

(** [a !== b] where [a] is a string and [b] a string or [undefined] / [null]. *)
Definition differentString (a : string) (b : option string) : bool :=
  negb (bool_decide (b = Some a)).

(** ** The canvas and its element *)

(** A CSS length written by a template literal [`${n}px`]. *)
Inductive CssLength := px (n : Z).

(** The [HTMLCanvasElement] returned by [canvas.getElement()]: the
    attributes the component writes, and whether it hangs below the
    component's main element. *)
Record Element := mkElement {
  className : string;
  style_display : string;
  style_width : option CssLength;
  style_height : option CssLength;
  attached : bool }.

(** Modelled from the spec: the [PhotoCanvas] class of app/renderer is not
    among the sources.  Section 6 of the specification gives the interface
    the component consumes; the state kept here is what went through that
    interface, plus the number of redraws [update()] triggered. *)
Record PhotoCanvas := mkPhotoCanvas {
  baseTexture : option Texture;
  clipRect : option Rect;
  size : option Size;
  canvasProjectionMatrix : option mat4;
  canvasCameraMatrix : option mat4;
  redraws : nat;
  element : Element }.

(** The state of [new PhotoCanvas()], its element not yet in the document. *)
Definition newPhotoCanvas : PhotoCanvas :=
  mkPhotoCanvas None None None None None 0%nat
    (mkElement EmptyString EmptyString None None false).

(** What the writes of the component do to an element. *)
Definition withClassName (name : string) (el : Element) : Element :=
  mkElement name (style_display el) (style_width el) (style_height el) (attached el).
Definition withDisplay (d : string) (el : Element) : Element :=
  mkElement (className el) d (style_width el) (style_height el) (attached el).
Definition withWidth (l : CssLength) (el : Element) : Element :=
  mkElement (className el) (style_display el) (Some l) (style_height el) (attached el).
Definition withHeight (l : CssLength) (el : Element) : Element :=
  mkElement (className el) (style_display el) (style_width el) (Some l) (attached el).
Definition withAttached (b : bool) (el : Element) : Element :=
  mkElement (className el) (style_display el) (style_width el) (style_height el) b.

(** What the methods of the interface do to a canvas. *)
Definition onElement (f : Element -> Element) (cv : PhotoCanvas) : PhotoCanvas :=
  mkPhotoCanvas (baseTexture cv) (clipRect cv) (size cv) (canvasProjectionMatrix cv)
    (canvasCameraMatrix cv) (redraws cv) (f (element cv)).
Definition withBaseTexture (t : option Texture) (cv : PhotoCanvas) : PhotoCanvas :=
  mkPhotoCanvas t (clipRect cv) (size cv) (canvasProjectionMatrix cv)
    (canvasCameraMatrix cv) (redraws cv) (element cv).
Definition withClipRect (r : option Rect) (cv : PhotoCanvas) : PhotoCanvas :=
  mkPhotoCanvas (baseTexture cv) r (size cv) (canvasProjectionMatrix cv)
    (canvasCameraMatrix cv) (redraws cv) (element cv).
Definition withSize (s : Size) (cv : PhotoCanvas) : PhotoCanvas :=
  mkPhotoCanvas (baseTexture cv) (clipRect cv) (Some s) (canvasProjectionMatrix cv)
    (canvasCameraMatrix cv) (redraws cv) (element cv).
Definition withProjectionMatrix (m : mat4) (cv : PhotoCanvas) : PhotoCanvas :=
  mkPhotoCanvas (baseTexture cv) (clipRect cv) (size cv) (Some m)
    (canvasCameraMatrix cv) (redraws cv) (element cv).
Definition withCameraMatrix (m : mat4) (cv : PhotoCanvas) : PhotoCanvas :=
  mkPhotoCanvas (baseTexture cv) (clipRect cv) (size cv) (canvasProjectionMatrix cv)
    (Some m) (redraws cv) (element cv).
Definition redrawn (cv : PhotoCanvas) : PhotoCanvas :=
  mkPhotoCanvas (baseTexture cv) (clipRect cv) (size cv) (canvasProjectionMatrix cv)
    (canvasCameraMatrix cv) (S (redraws cv)) (element cv).

(** Addresses of canvas objects. *)
Abbreviation loc := nat (only parsing).

(** [canvas.isValid()] is decided by the renderer; the component only
    observes its answer. *)
Class PhotoCanvasOps := { isValid : PhotoCanvas -> bool }.

(** The [TextureCache] class of ./TextureCache, through the members the
    component calls.  [Cache] is the state of one cache object. *)
Class TextureCacheOps (Cache : Type) := {
  (** [new TextureCache({ canvas, maxCacheSize: 5, profile, onTextureFetched })] *)
  newTextureCache : loc -> Cache;
  setImagesToFetch : list (option string) -> Cache -> Cache;
  getTextureError : Cache -> string -> option TextureError;
  getTexture : Cache -> string -> option Texture }.

(** ** Timeouts and events *)

Abbreviation TimerId := nat (only parsing).

(** A pending [setTimeout]. The only closure the component ever schedules is
    the deferred hide, which captures the local [canvas] of the
    [updateCanvas] run that created it. *)
Record Timeout := mkTimeout {
  timeout_id : TimerId;
  timeout_canvas : loc;
  timeout_delay : Z }.

(** Calls made by the component, in the order it makes them. *)
Inductive Event :=
| NewPhotoCanvas (c : loc)
| NewTextureCache (c : loc) (maxCacheSize : Z)
| CacheSetImagesToFetch (imagePaths : list (option string))
| CacheGetTextureError (key : string)
| CacheGetTexture (key : string)
| CanvasSetBaseTexture (c : loc) (texture : option Texture) (flag : bool)
| CanvasSetClipRect (c : loc) (r : option Rect)
| CanvasSetSize (c : loc) (s : Size)
| CanvasSetProjectionMatrix (c : loc) (m : mat4)
| CanvasSetCameraMatrix (c : loc) (m : mat4)
| CanvasIsValid (c : loc)
| CanvasUpdate (c : loc)
| ElemSetClassName (c : loc) (name : string)
| ElemSetDisplay (c : loc) (display : string)
| ElemSetWidth (c : loc) (w : CssLength)
| ElemSetHeight (c : loc) (h : CssLength)
| ElemAppendChild (c : loc)
| ElemRemoveChild (c : loc)
| SetTimeout (id : TimerId) (delay : Z)
| ClearTimeout (id : TimerId)
| OnLoadingStateChange (loadingState : PhotoLayerLoadingState)
| OnTextureChange (textureSize : Size).

(** The events that are operations on the canvas object at [c] or on its
    element. *)
Definition touchesCanvas (c : loc) (e : Event) : bool :=
  match e with
  | CanvasSetBaseTexture c' _ _ | CanvasSetClipRect c' _ | CanvasSetSize c' _
  | CanvasSetProjectionMatrix c' _ | CanvasSetCameraMatrix c' _
  | CanvasIsValid c' | CanvasUpdate c'
  | ElemSetClassName c' _ | ElemSetDisplay c' _ | ElemSetWidth c' _
  | ElemSetHeight c' _ | ElemAppendChild c' | ElemRemoveChild c' =>
      bool_decide (c' = c)
  | _ => false
  end.

(** ** The component and its world *)

Section PhotoLayer.

Context {Cache : Type} `{!TextureCacheOps Cache} `{!PhotoCanvasOps}.

(** The fields of the component come first; [heap] holds the canvas objects
    by address, [timers] the timeouts that were set and have neither fired
    nor been cleared.  [deferredHideCanvasTimeout] is only ever tested for
    truthiness, so [undefined] (its value before the first assignment) and
    [null] are both [None]; a timer handle is always truthy. *)
Record World := mkWorld {
  props : Props;
  canvas : option loc;
  textureCache : option Cache;
  canvasImagePath : option string;
  deferredHideCanvasTimeout : option TimerId;
  prevLoadingState : option PhotoLayerLoadingState;
  heap : list PhotoCanvas;
  timers : list Timeout;
  nextTimerId : TimerId }.

Definition set_props (p : Props) (w : World) : World :=
  mkWorld p (canvas w) (textureCache w) (canvasImagePath w)
    (deferredHideCanvasTimeout w) (prevLoadingState w) (heap w) (timers w) (nextTimerId w).
Definition set_canvas (c : option loc) (w : World) : World :=
  mkWorld (props w) c (textureCache w) (canvasImagePath w)
    (deferredHideCanvasTimeout w) (prevLoadingState w) (heap w) (timers w) (nextTimerId w).
Definition set_textureCache (t : option Cache) (w : World) : World :=
  mkWorld (props w) (canvas w) t (canvasImagePath w)
    (deferredHideCanvasTimeout w) (prevLoadingState w) (heap w) (timers w) (nextTimerId w).
Definition set_canvasImagePath (k : option string) (w : World) : World :=
  mkWorld (props w) (canvas w) (textureCache w) k
    (deferredHideCanvasTimeout w) (prevLoadingState w) (heap w) (timers w) (nextTimerId w).
Definition set_deferredHideCanvasTimeout (t : option TimerId) (w : World) : World :=
  mkWorld (props w) (canvas w) (textureCache w) (canvasImagePath w)
    t (prevLoadingState w) (heap w) (timers w) (nextTimerId w).
Definition set_prevLoadingState (s : option PhotoLayerLoadingState) (w : World) : World :=
  mkWorld (props w) (canvas w) (textureCache w) (canvasImagePath w)
    (deferredHideCanvasTimeout w) s (heap w) (timers w) (nextTimerId w).
Definition set_heap (h : list PhotoCanvas) (w : World) : World :=
  mkWorld (props w) (canvas w) (textureCache w) (canvasImagePath w)
    (deferredHideCanvasTimeout w) (prevLoadingState w) h (timers w) (nextTimerId w).
Definition set_timers (ts : list Timeout) (w : World) : World :=
  mkWorld (props w) (canvas w) (textureCache w) (canvasImagePath w)
    (deferredHideCanvasTimeout w) (prevLoadingState w) (heap w) ts (nextTimerId w).
Definition set_nextTimerId (n : TimerId) (w : World) : World :=
  mkWorld (props w) (canvas w) (textureCache w) (canvasImagePath w)
    (deferredHideCanvasTimeout w) (prevLoadingState w) (heap w) (timers w) n.

(** A freshly constructed component: the field initialisers of the class. *)
Definition construct (p : Props) : World :=
  mkWorld p None None None None None [] [] 1%nat.

(** *** Computations: a state monad that also logs the calls made *)

Definition M (A : Type) : Type := World -> A * World * list Event.

Definition ret {A} (a : A) : M A := fun w => (a, w, []).

Definition bind {A B} (m : M A) (k : A -> M B) : M B := fun w =>
  let '(a, w1, es1) := m w in
  let '(b, w2, es2) := k a w1 in
  (b, w2, es1 ++ es2).

Declare Scope action_scope.
Delimit Scope action_scope with action.
Notation "x <- m ;; k" := (bind m (fun x => k))
  (at level 100, m at next level, right associativity) : action_scope.
Notation "m ;; k" := (bind m (fun _ => k))
  (at level 100, right associativity) : action_scope.
Local Open Scope action_scope.

Definition get : M World := fun w => (w, w, []).
Definition modify (f : World -> World) : M unit := fun w => (tt, f w, []).
Definition emit (e : Event) : M unit := fun w => (tt, w, [e]).

(** [when b m]: an [if] without [else]. *)
Definition when (b : bool) (m : M unit) : M unit := if b then m else ret tt.

(** The world after, and the calls made by, a computation. *)
Definition exec {A} (m : M A) (w : World) : World := snd (fst (m w)).
Definition calls {A} (m : M A) (w : World) : list Event := snd (m w).
Definition result {A} (m : M A) (w : World) : A := fst (fst (m w)).

(** *** Primitive operations on collaborators *)

(** A method of the canvas at [c]: the call is logged and the object
    updated in place, for every holder of the reference. *)
Definition onCanvas (c : loc) (e : Event) (f : PhotoCanvas -> PhotoCanvas) : M unit :=
  emit e;; modify (fun w => set_heap (alter f c (heap w)) w).

Definition canvas_setBaseTexture (c : loc) (texture : option Texture) (flag : bool) : M unit :=
  onCanvas c (CanvasSetBaseTexture c texture flag) (withBaseTexture texture).

Definition canvas_setClipRect (c : loc) (r : option Rect) : M unit :=
  onCanvas c (CanvasSetClipRect c r) (withClipRect r).

Definition canvas_setSize (c : loc) (s : Size) : M unit :=
  onCanvas c (CanvasSetSize c s) (withSize s).

Definition canvas_setProjectionMatrix (c : loc) (m : mat4) : M unit :=
  onCanvas c (CanvasSetProjectionMatrix c m) (withProjectionMatrix m).

Definition canvas_setCameraMatrix (c : loc) (m : mat4) : M unit :=
  onCanvas c (CanvasSetCameraMatrix c m) (withCameraMatrix m).

Definition canvas_update (c : loc) : M unit :=
  onCanvas c (CanvasUpdate c) redrawn.

Definition canvas_isValid (c : loc) : M bool :=
  emit (CanvasIsValid c);;
  w <- get;;
  ret (from_option isValid false (heap w !! c)).

(** [canvas.getElement().className = name] *)
Definition elem_setClassName (c : loc) (name : string) : M unit :=
  onCanvas c (ElemSetClassName c name) (onElement (withClassName name)).

(** [canvas.getElement().style.display = d] *)
Definition elem_setDisplay (c : loc) (d : string) : M unit :=
  onCanvas c (ElemSetDisplay c d) (onElement (withDisplay d)).

(** [canvas.getElement().style.width = `${n}px`] *)
Definition elem_setWidth (c : loc) (l : CssLength) : M unit :=
  onCanvas c (ElemSetWidth c l) (onElement (withWidth l)).

(** [canvas.getElement().style.height = `${n}px`] *)
Definition elem_setHeight (c : loc) (l : CssLength) : M unit :=
  onCanvas c (ElemSetHeight c l) (onElement (withHeight l)).

(** [mainElem.appendChild(canvasElem)] *)
Definition elem_appendChild (c : loc) : M unit :=
  onCanvas c (ElemAppendChild c) (onElement (withAttached true)).

(** [canvasElem.parentNode!.removeChild(canvasElem)] *)
Definition elem_removeChild (c : loc) : M unit :=
  onCanvas c (ElemRemoveChild c) (onElement (withAttached false)).

(** [textureCache.setImagesToFetch(imagePaths)], on the cache the component
    holds. *)
Definition cache_setImagesToFetch (imagePaths : list (option string)) : M unit :=
  emit (CacheSetImagesToFetch imagePaths);;
  modify (fun w => set_textureCache (setImagesToFetch imagePaths <$> textureCache w) w).

Definition cache_getTextureError (key : string) : M (option TextureError) :=
  emit (CacheGetTextureError key);;
  w <- get;;
  ret (textureCache w ≫= fun tc => getTextureError tc key).

Definition cache_getTexture (key : string) : M (option Texture) :=
  emit (CacheGetTexture key);;
  w <- get;;
  ret (textureCache w ≫= fun tc => getTexture tc key).

(** [setTimeout(closure, delay)]: the closure is the deferred hide of
    [updateCanvas], closed over [c]. The fresh handle is returned. *)
Definition setTimeout (c : loc) (delay : Z) : M TimerId :=
  w <- get;;
  let id := nextTimerId w in
  emit (SetTimeout id delay);;
  modify (fun w => set_nextTimerId (S id) (set_timers (timers w ++ [mkTimeout id c delay]) w));;
  ret id.

(** [clearTimeout(id)]: drops the timeout if it is still pending. *)
Definition clearTimeout (id : TimerId) : M unit :=
  emit (ClearTimeout id);;
  modify (fun w => set_timers (filter (fun t => timeout_id t ≠ id) (timers w)) w).

(** ** The methods of the component *)

(** [setLoadingState], lines 82-87. *)
Definition setLoadingState (loadingState : PhotoLayerLoadingState) : M unit :=
  w <- get;;
  when (negb (bool_decide (Some loadingState = prevLoadingState w)))
    (modify (set_prevLoadingState (Some loadingState));;
     emit (OnLoadingStateChange loadingState)).

(** Lines 113-121 of [updateCanvas]: rebinding the base texture.  Returns
    whether [canvasChanged] was set. *)
Definition updateCanvas_texture (canvas : loc) : M bool :=
  w <- get;;
  let props := props w in
  if differentString (imagePath props) (canvasImagePath w) then
    texture <- cache_getTexture (imagePath props);;
    canvas_setBaseTexture canvas texture false;;
    modify (set_canvasImagePath (if texture is Some _ then Some (imagePath props) else None));;
    match texture with
    | Some t => emit (OnTextureChange (mkSize (tex_width t) (tex_height t)))
    | None => ret tt
    end;;
    ret true
  else ret false.

(** Lines 123-127: following the size of the detail body. *)
Definition updateCanvas_bodySize (canvas : loc) (prevProps : PartialProps) : M unit :=
  w <- get;;
  let props := props w in
  when (differentFromOptional (bodySize props) (prev_bodySize prevProps))
    (elem_setWidth canvas (px (width (deref (bodySize props))));;
     elem_setHeight canvas (px (height (deref (bodySize props))))).

(** Lines 129-132: the clip rectangle. *)
Definition updateCanvas_clipRect (canvas : loc) (prevProps : PartialProps) : M bool :=
  w <- get;;
  let props := props w in
  if negb (bool_decide (prev_mode prevProps = Some (mode props)))
     || differentNullable (cameraMetrics props) (prev_cameraMetrics prevProps)
  then
    canvas_setClipRect canvas
      (match cameraMetrics props with
       | Some cm => if bool_decide (mode props = "view") then Some (cropRect (deref cm)) else None
       | None => None
       end);;
    ret true
  else ret false.

(** Lines 134-142: size and matrices of the camera. *)
Definition updateCanvas_cameraMetrics (canvas : loc) (prevProps : PartialProps) : M bool :=
  w <- get;;
  let props := props w in
  if differentNullable (cameraMetrics props) (prev_cameraMetrics prevProps) then
    match cameraMetrics props with
    | Some cm =>
        canvas_setSize canvas (canvasSize (deref cm));;
        canvas_setProjectionMatrix canvas (projectionMatrix (deref cm));;
        canvas_setCameraMatrix canvas (cameraMatrix (deref cm))
    | None => ret tt
    end;;
    ret true
  else ret false.

(** Lines 111-142: everything between the error check and the final
    [if (canvasChanged)]; the result is the value of [canvasChanged]. *)
Definition updateCanvas_apply (canvas : loc) (prevProps : PartialProps) : M bool :=
  changed1 <- updateCanvas_texture canvas;;
  updateCanvas_bodySize canvas prevProps;;
  changed2 <- updateCanvas_clipRect canvas prevProps;;
  changed3 <- updateCanvas_cameraMetrics canvas prevProps;;
  ret (changed1 || changed2 || changed3).

(** Lines 145-152: the branch that shows the canvas. *)
Definition showCanvas (canvas : loc) : M unit :=
  w <- get;;
  match deferredHideCanvasTimeout w with
  | Some id =>
      clearTimeout id;;
      modify (set_deferredHideCanvasTimeout None)
  | None => ret tt
  end;;
  canvas_update canvas;;
  elem_setDisplay canvas "block";;
  setLoadingState done.

(** Lines 144-162: showing the canvas, or scheduling the deferred hide.
    [props.cameraMetrics && canvas.isValid()] asks the canvas only when the
    metrics are there. *)
Definition updateCanvas_present (canvas : loc) (canvasChanged : bool) : M unit :=
  when canvasChanged
    (w <- get;;
     valid <- (if cameraMetrics (props w) is Some _ then canvas_isValid canvas else ret false);;
     if valid then showCanvas canvas
     else
       w <- get;;
       match deferredHideCanvasTimeout w with
       | Some _ => ret tt
       | None =>
           id <- setTimeout canvas 100;;
           modify (set_deferredHideCanvasTimeout (Some id))
       end).

(** [updateCanvas], lines 96-163. *)
Definition updateCanvas (prevProps : PartialProps) : M unit :=
  w <- get;;
  let props := props w in
  match canvas w, textureCache w with
  | Some canvas, Some _ =>
      cache_setImagesToFetch
        [Some (imagePath props); imagePathNext props; imagePathPrev props];;
      textureError <- cache_getTextureError (imagePath props);;
      match textureError with
      | Some err =>
          elem_setDisplay canvas "none";;
          setLoadingState (failed err)
      | None =>
          canvasChanged <- updateCanvas_apply canvas prevProps;;
          updateCanvas_present canvas canvasChanged
      end
  | _, _ => ret tt
  end.

(** The closure given to [setTimeout] at lines 156-160, for the timeout it
    was scheduled as. *)
Definition deferredHide (t : Timeout) : M unit :=
  modify (set_deferredHideCanvasTimeout None);;
  elem_setDisplay (timeout_canvas t) "none";;
  setLoadingState loading.

(** The timeout [id] becomes due: if it is still pending it leaves the queue
    and its closure runs; a cleared timeout never fires. *)
Definition fireTimeout (id : TimerId) : M unit :=
  w <- get;;
  match list_find (fun t => timeout_id t = id) (timers w) with
  | Some (_, t) =>
      modify (fun w => set_timers (filter (fun t => timeout_id t ≠ id) (timers w)) w);;
      deferredHide t
  | None => ret tt
  end.

(** [onTextureFetched], lines 89-94. *)
Definition onTextureFetched (key : string) (texture : option Texture) : M unit :=
  w <- get;;
  match texture with
  | Some t =>
      when (bool_decide (key = imagePath (props w)))
        (emit (OnTextureChange (mkSize (tex_width t) (tex_height t))))
  | None => ret tt
  end;;
  w <- get;;
  updateCanvas (asPartial (props w)).

(** [componentDidMount], lines 52-68. *)
Definition componentDidMount : M unit :=
  w <- get;;
  let c := length (heap w) in
  emit (NewPhotoCanvas c);;
  modify (fun w => set_canvas (Some c) (set_heap (heap w ++ [newPhotoCanvas]) w));;
  elem_setClassName c "PhotoLayer-canvas";;
  elem_setDisplay c "none";;
  elem_appendChild c;;
  emit (NewTextureCache c 5);;
  modify (set_textureCache (Some (newTextureCache c)));;
  updateCanvas emptyProps.

(** [componentWillUnmount], lines 70-76. *)
Definition componentWillUnmount : M unit :=
  w <- get;;
  match canvas w with
  | Some c =>
      elem_removeChild c;;
      modify (set_canvas None)
  | None => ret tt
  end.

(** [componentDidUpdate], lines 78-80. *)
Definition componentDidUpdate (prevProps : PartialProps) : M unit :=
  updateCanvas prevProps.

(** React re-renders with [newProps]: it stores them in [this.props] and
    calls [componentDidUpdate] with the ones they replace. *)
Definition receiveProps (newProps : Props) : M unit :=
  w <- get;;
  modify (set_props newProps);;
  componentDidUpdate (asPartial (props w)).

(** ** The life of a component *)

(** What can happen to a component: React's lifecycle calls, the two
    callbacks it handed out, and the progress the texture cache makes on
    its own between calls. *)
Inductive Action :=
| Mount
| Update (newProps : Props)
| Unmount
| TextureFetched (key : string) (texture : option Texture)
| TimeoutDue (id : TimerId)
| CacheProgress (next : Cache).

Definition perform (a : Action) : M unit :=
  match a with
  | Mount => componentDidMount
  | Update newProps => receiveProps newProps
  | Unmount => componentWillUnmount
  | TextureFetched key texture => onTextureFetched key texture
  | TimeoutDue id => fireTimeout id
  | CacheProgress next =>
      modify (fun w => set_textureCache (textureCache w ≫= fun _ => Some next) w)
  end.

(** Performing a list of actions in order. *)
Fixpoint performAll (actions : list Action) : M unit :=
  match actions with
  | [] => ret tt
  | a :: rest => perform a;; performAll rest
  end.

(** Setting a list of loading states in order. *)
Fixpoint setLoadingStates (states : list PhotoLayerLoadingState) : M unit :=
  match states with
  | [] => ret tt
  | s :: rest => setLoadingState s;; setLoadingStates rest
  end.

(** The notifications the specification asks for: a state is reported when
    it differs from the last one reported. *)
Fixpoint notifications (last : option PhotoLayerLoadingState)
    (states : list PhotoLayerLoadingState) : list PhotoLayerLoadingState :=
  match states with
  | [] => []
  | s :: rest =>
      if bool_decide (last = Some s) then notifications last rest
      else s :: notifications (Some s) rest
  end.

(** The identifiers of the pending timeouts. *)
Definition pendingTimers (w : World) : list TimerId := timeout_id <$> timers w.

(** ** Describing one run

    The pieces of [updateCanvas] in closed form: which calls each block
    makes and which world it leaves, as functions of the world it starts
    in. *)

Implicit Types (w : World) (c : loc) (tc : Cache) (prevProps : PartialProps).

(** The keys [updateCanvas] passes to [setImagesToFetch]. *)
Definition imagesToFetch (p : Props) : list (option string) :=
  [Some (imagePath p); imagePathNext p; imagePathPrev p].

(** The interest list as the specification words it: previous, current,
    next, without the null entries. *)
Definition specifiedInterest (p : Props) : list (option string) :=
  Some <$> omap id [imagePathPrev p; Some (imagePath p); imagePathNext p].

(** The world in which [updateCanvas] asks for the texture error: the one it
    was called in, after the cache [tc] took note of the images to fetch. *)
Definition afterInterest w tc : World :=
  set_textureCache (Some (setImagesToFetch (imagesToFetch (props w)) tc)) w.

(** The notification [setLoadingState s] makes in [w], if any. *)
Definition notified w (s : PhotoLayerLoadingState) : list Event :=
  if bool_decide (prevLoadingState w = Some s) then [] else [OnLoadingStateChange s].

(** The canvas after the error branch hid its element. *)
Definition hidden c w : World :=
  set_heap (alter (onElement (withDisplay "none")) c (heap w)) w.

(** The texture the cache of [w] holds for the current image. *)
Definition currentTexture w : option Texture :=
  textureCache w ≫= fun tc => getTexture tc (imagePath (props w)).

(** The notification of the texture-size observer for a texture, if any. *)
Definition sizeNotified (texture : option Texture) : list Event :=
  match texture with
  | Some t => [OnTextureChange (mkSize (tex_width t) (tex_height t))]
  | None => []
  end.

(** Whether line 129 finds the mode or the camera metrics changed. *)
Definition viewChanged prevProps (p : Props) : bool :=
  negb (bool_decide (prev_mode prevProps = Some (mode p)))
  || differentNullable (cameraMetrics p) (prev_cameraMetrics prevProps).

(** The clip rectangle of line 130. *)
Definition clipRectOf (p : Props) : option Rect :=
  match cameraMetrics p with
  | Some cm => if bool_decide (mode p = "view") then Some (cropRect (deref cm)) else None
  | None => None
  end.

(** What lines 135-140 push to the canvas. *)
Definition pushMetrics (p : Props) (cv : PhotoCanvas) : PhotoCanvas :=
  match cameraMetrics p with
  | Some cm =>
      withCameraMatrix (cameraMatrix (deref cm))
        (withProjectionMatrix (projectionMatrix (deref cm))
           (withSize (canvasSize (deref cm)) cv))
  | None => cv
  end.

Definition pushMetricsCalls c (p : Props) : list Event :=
  match cameraMetrics p with
  | Some cm =>
      [CanvasSetSize c (canvasSize (deref cm));
       CanvasSetProjectionMatrix c (projectionMatrix (deref cm));
       CanvasSetCameraMatrix c (cameraMatrix (deref cm))]
  | None => []
  end.

(** The value [canvasChanged] has at line 144. *)
Definition canvasChangedBy prevProps w : bool :=
  differentString (imagePath (props w)) (canvasImagePath w)
  || viewChanged prevProps (props w)
  || differentNullable (cameraMetrics (props w)) (prev_cameraMetrics prevProps).

(** What lines 111-142 do to the canvas object, step by step. *)
Definition applyToCanvas prevProps w (cv : PhotoCanvas) : PhotoCanvas :=
  let p := props w in
  let cv1 :=
    if differentString (imagePath p) (canvasImagePath w)
    then withBaseTexture (currentTexture w) cv else cv in
  let cv2 :=
    if differentFromOptional (bodySize p) (prev_bodySize prevProps)
    then onElement (withHeight (px (height (deref (bodySize p)))))
           (onElement (withWidth (px (width (deref (bodySize p))))) cv1)
    else cv1 in
  let cv3 :=
    if viewChanged prevProps p then withClipRect (clipRectOf p) cv2 else cv2 in
  if differentNullable (cameraMetrics p) (prev_cameraMetrics prevProps)
  then pushMetrics p cv3 else cv3.

(** The calls lines 111-142 make. *)
Definition applyCalls c prevProps w : list Event :=
  let p := props w in
  (if differentString (imagePath p) (canvasImagePath w)
   then [CacheGetTexture (imagePath p); CanvasSetBaseTexture c (currentTexture w) false]
        ++ sizeNotified (currentTexture w)
   else [])
  ++ (if differentFromOptional (bodySize p) (prev_bodySize prevProps)
      then [ElemSetWidth c (px (width (deref (bodySize p))));
            ElemSetHeight c (px (height (deref (bodySize p))))]
      else [])
  ++ (if viewChanged prevProps p then [CanvasSetClipRect c (clipRectOf p)] else [])
  ++ (if differentNullable (cameraMetrics p) (prev_cameraMetrics prevProps)
      then pushMetricsCalls c p else []).

(** The key the canvas shows after line 121. *)
Definition appliedImagePath w : option string :=
  if differentString (imagePath (props w)) (canvasImagePath w)
  then currentTexture w ≫= fun _ => Some (imagePath (props w))
  else canvasImagePath w.

(** The world at line 144. *)
Definition applied c prevProps w : World :=
  set_canvasImagePath (appliedImagePath w)
    (set_heap (alter (applyToCanvas prevProps w) c (heap w)) w).

(** Lines 146-149: the pending deferred hide, if there is one, is cleared. *)
Definition cancelled w : World :=
  match deferredHideCanvasTimeout w with
  | Some id =>
      set_deferredHideCanvasTimeout None
        (set_timers (filter (fun t => timeout_id t ≠ id) (timers w)) w)
  | None => w
  end.

Definition cancelCalls w : list Event :=
  match deferredHideCanvasTimeout w with
  | Some id => [ClearTimeout id]
  | None => []
  end.

(** The world after lines 146-152. *)
Definition shown c w : World :=
  set_prevLoadingState (Some done)
    (set_heap (alter (fun cv => onElement (withDisplay "block") (redrawn cv)) c (heap w))
       (cancelled w)).

(** Lines 153-161: a deferred hide is scheduled unless one is pending. *)
Definition deferred c w : World :=
  match deferredHideCanvasTimeout w with
  | Some _ => w
  | None =>
      set_deferredHideCanvasTimeout (Some (nextTimerId w))
        (set_nextTimerId (S (nextTimerId w))
           (set_timers (timers w ++ [mkTimeout (nextTimerId w) c 100]) w))
  end.

Definition deferCalls w : list Event :=
  match deferredHideCanvasTimeout w with
  | Some _ => []
  | None => [SetTimeout (nextTimerId w) 100]
  end.

(** The condition of line 145. *)
Definition showable c w : bool :=
  match cameraMetrics (props w) with
  | Some _ => from_option isValid false (heap w !! c)
  | None => false
  end.

(** [canvas.isValid()] is only asked when the camera metrics are there. *)
Definition askValid c w : list Event :=
  if cameraMetrics (props w) is Some _ then [CanvasIsValid c] else [].

(** The actions that run the per-update algorithm. *)
Definition runsUpdate (a : Action) : bool :=
  match a with
  | Update _ | TextureFetched _ _ => true
  | _ => false
  end.

(** The pending timeouts are exactly the one the component remembers. *)
Definition timersAgree w : Prop :=
  pendingTimers w = option_list (deferredHideCanvasTimeout w).

End PhotoLayer.

Arguments World : clear implicits.
Arguments Action : clear implicits.

(** ** A renderer and a cache to run the component on *)

Module Demo.

(** A canvas that is valid once it has a base texture, a size and both
    matrices. *)
Definition canvasOps : PhotoCanvasOps :=
  {| isValid cv :=
       bool_decide (is_Some (baseTexture cv)) && bool_decide (is_Some (size cv))
       && bool_decide (is_Some (canvasProjectionMatrix cv))
       && bool_decide (is_Some (canvasCameraMatrix cv)) |}.

(** A cache whose fetches have all completed: a table from keys to the
    texture or the error the fetch ended with. *)
Definition Cache : Type := list (string * (Texture + TextureError)).

Definition find (c : list (string * (Texture + TextureError))) (key : string)
    : option (Texture + TextureError) :=
  match list_find (fun e => fst e = key) c with
  | Some (_, e) => Some (snd e)
  | None => None
  end.

Definition cacheOps : TextureCacheOps Cache :=
  {| newTextureCache _ := [];
     setImagesToFetch _ c := c;
     getTextureError c key := find c key ≫= fun r => match r with inr e => Some e | inl _ => None end;
     getTexture c key := find c key ≫= fun r => match r with inl t => Some t | inr _ => None end |}.

Definition metrics : ref CameraMetrics :=
  mkRef 7%nat (mkCameraMetrics (mkSize 800 600) [1; 0; 0; 1] [1; 0; 0; 1] (mkRect 0 0 400 300)).

Definition someProps : Props :=
  mkProps "view" (mkRef 3%nat (mkSize 800 600)) "/b.jpg" (Some "/a.jpg") (Some "/c.jpg") (Some metrics).

(** The same photo shown as the first of its folder. *)
Definition firstProps : Props :=
  mkProps "view" (mkRef 3%nat (mkSize 800 600)) "/b.jpg" None (Some "/c.jpg") (Some metrics).

(** The same photo in a body that was resized. *)
Definition resizedProps : Props :=
  mkProps "view" (mkRef 4%nat (mkSize 1024 768)) "/b.jpg" (Some "/a.jpg") (Some "/c.jpg") (Some metrics).

Definition texture : Texture := mkTexture 4000 3000.

(** A mounted component whose cache holds [entries], with nothing shown
    yet. *)
Definition mounted (p : Props) (entries : Cache) : World Cache :=
  mkWorld p (Some 0%nat) (Some entries) None None None
    [onElement (withAttached true) (onElement (withDisplay "none") newPhotoCanvas)] [] 1%nat.

(** The same with a deferred hide pending. *)
Definition hiding (p : Props) (entries : Cache) : World Cache :=
  mkWorld p (Some 0%nat) (Some entries) None (Some 1%nat) (Some done)
    [onElement (withAttached true) (onElement (withDisplay "block") newPhotoCanvas)]
    [mkTimeout 1%nat 0%nat 100] 2%nat.

(** A mounted component showing the photo of [p]. *)
Definition showing (p : Props) (entries : Cache) : World Cache :=
  mkWorld p (Some 0%nat) (Some entries) (Some (imagePath p)) None (Some done)
    [withBaseTexture (Some texture)
       (onElement (withAttached true) (onElement (withDisplay "block") newPhotoCanvas))]
    [] 1%nat.

End Demo.

(** ** Observing a component over its life *)

Section Observing.

Context {Cache : Type} `{!TextureCacheOps Cache} `{!PhotoCanvasOps}.

Implicit Types (w : World Cache) (c : loc).

(** The states a list of calls reported to [onLoadingStateChange]. *)
Definition loadingChanges (es : list Event) : list PhotoLayerLoadingState :=
  omap (fun e => match e with OnLoadingStateChange s => Some s | _ => None end) es.

(** No state of the list repeats the one before it, [last] being the one
    before the first. *)
Fixpoint noRepeat (last : option PhotoLayerLoadingState)
    (states : list PhotoLayerLoadingState) : Prop :=
  match states with
  | [] => True
  | s :: rest => last ≠ Some s ∧ noRepeat (Some s) rest
  end.

(** The state reported last, [last] if none was. *)
Definition lastReported (last : option PhotoLayerLoadingState)
    (states : list PhotoLayerLoadingState) : option PhotoLayerLoadingState :=
  foldl (fun _ s => Some s) last states.

(** The calls [es] reported a chain of states without repetition that
    leads from the last state of [w] to the last state of [w']. *)
Definition reportsChain w (es : list Event) w' : Prop :=
  noRepeat (prevLoadingState w) (loadingChanges es)
  ∧ prevLoadingState w' = lastReported (prevLoadingState w) (loadingChanges es).

(** The world in which [componentDidMount] calls [updateCanvas], line 67:
    the new canvas is the last object of the heap, its element is named,
    hidden and attached, and the cache is new. *)
Definition mountedWorld w : World Cache :=
  set_textureCache (Some (newTextureCache (length (heap w))))
    (set_heap
       (alter (onElement (withAttached true)) (length (heap w))
          (alter (onElement (withDisplay "none")) (length (heap w))
             (alter (onElement (withClassName "PhotoLayer-canvas")) (length (heap w))
                (heap w ++ [newPhotoCanvas]))))
       (set_canvas (Some (length (heap w))) w)).

(** The calls of lines 53-65. *)
Definition mountCalls w : list Event :=
  [NewPhotoCanvas (length (heap w));
   ElemSetClassName (length (heap w)) "PhotoLayer-canvas";
   ElemSetDisplay (length (heap w)) "none";
   ElemAppendChild (length (heap w));
   NewTextureCache (length (heap w)) 5].




End Observing.

(** ** PictureDetail: the key bindings of the older detail view

    [src/components/picture-detail.js].  The document keeps the listeners of
    its [keyup] event in the order they were added; a listener is a function
    object, told apart from every other by its identity. *)

Module PictureDetail.

(** A function made by [this.keyboardListener.bind(this)]: [fn] is the
    identity of the new function object, [self] the component it is bound
    to. *)
Record Listener := mkListener { fn : nat; self : nat }.

(** The document: the [keyup] listeners and the number of function objects
    made so far. *)
Record Document := mkDocument { keyup : list Listener; functions : nat }.

(** The calls a listener makes on the props of its component. *)
Inductive Call :=
| SetCurrent (component : nat) (current : option nat)
| SetLeft (component : nat)
| SetRight (component : nat).

(** [keyboardListener], lines 12-21, for the component [this]. *)
Definition keyboardListener (this : nat) (keyCode : Z) : list Call :=
  if bool_decide (keyCode = 27) then [SetCurrent this None]
  else if bool_decide (keyCode = 37) then [SetLeft this]
  else if bool_decide (keyCode = 39) then [SetRight this]
  else [].

(** [f.bind(this)] makes a new function object on every call. *)
Definition bind (this : nat) (d : Document) : Listener * Document :=
  (mkListener (functions d) this, mkDocument (keyup d) (S (functions d))).

(** [document.addEventListener('keyup', l)]: a listener that is there
    already is not added again. *)
Definition addEventListener (l : Listener) (d : Document) : Document :=
  if bool_decide (Exists (fun l' => fn l' = fn l) (keyup d)) then d
  else mkDocument (keyup d ++ [l]) (functions d).

(** [document.removeEventListener('keyup', l)]: removes the listener that is
    this very function object, if it is there. *)
Definition removeEventListener (l : Listener) (d : Document) : Document :=
  mkDocument (filter (fun l' => fn l' ≠ fn l) (keyup d)) (functions d).

(** [componentDidMount], lines 28-34. *)
Definition componentDidMount (this : nat) (d : Document) : Document :=
  let '(l, d1) := bind this d in addEventListener l d1.

(** [componentWillUnmount], lines 36-38. *)
Definition componentWillUnmount (this : nat) (d : Document) : Document :=
  let '(l, d1) := bind this d in removeEventListener l d1.

(** A [keyup] event reaches every listener in the order of registration. *)
Definition dispatchKeyup (keyCode : Z) (d : Document) : list Call :=
  l ← keyup d; keyboardListener (self l) keyCode.

(** One component after the other is mounted and unmounted again. *)
Definition visits (components : list nat) (d : Document) : Document :=
  foldl (fun d this => componentWillUnmount this (componentDidMount this d)) d components.

(** Every function object in use was made before: what the counter says. *)
Definition wellFormed (d : Document) : Prop :=
  Forall (fun l => (fn l < functions d)%nat) (keyup d).

End PictureDetail.

(** ** The props of the ExportDialog stories

    [createDefaultProps] of the UI-tester file for [ExportDialog]: the props
    are made from the state the tester keeps between renders, and the two
    change handlers write to that state and ask for a new render. *)

Section ExportDialogStories.

(** [PhotoExportOptions] and [createDefaultExportOptions] are imported; the
    object spread with a new [folderPath] is [withFolderPath]. *)
Context {PhotoExportOptions : Type}.
Context (createDefaultExportOptions : PhotoExportOptions).
Context (withFolderPath : string -> PhotoExportOptions -> PhotoExportOptions).

(** [context.state] and the number of [context.forceUpdate()] calls. *)
Record TestContext := mkTestContext {
  state_exportOptions : option PhotoExportOptions;
  state_showRemoveInfoDesc : option bool;
  forcedUpdates : nat }.

(** The data of the [Props] that [createDefaultProps] returns; its four
    handlers are [onExportOptionsChange] and [onToggleShowRemoveInfoDesc]
    below and two logging actions. *)
Record DialogProps := mkDialogProps {
  usePortal : bool;
  totalSelectedCount : Z;
  exportOptions : PhotoExportOptions;
  showRemoveInfoDesc : bool;
  progress : option (Z * Z) }.

(** [createDefaultProps], lines 10-39: the props and the context it leaves. *)
Definition createDefaultProps (context : TestContext) : DialogProps * TestContext :=
  let context1 :=
    match state_exportOptions context with
    | Some _ => context
    | None =>
        mkTestContext
          (Some (withFolderPath "/Users/me/Temp/vacation-photos" createDefaultExportOptions))
          (state_showRemoveInfoDesc context) (forcedUpdates context)
    end in
  (mkDialogProps false 7
     (default (withFolderPath "/Users/me/Temp/vacation-photos" createDefaultExportOptions)
        (state_exportOptions context1))
     (default false (state_showRemoveInfoDesc context1))
     None,
   context1).

(** The handler of lines 28-31. *)
Definition onExportOptionsChange (exportOptions : PhotoExportOptions)
    (context : TestContext) : TestContext :=
  mkTestContext (Some exportOptions) (state_showRemoveInfoDesc context)
    (S (forcedUpdates context)).

(** The handler of lines 32-35; [!undefined] is [true]. *)
Definition onToggleShowRemoveInfoDesc (context : TestContext) : TestContext :=
  mkTestContext (state_exportOptions context)
    (Some (negb (default false (state_showRemoveInfoDesc context))))
    (S (forcedUpdates context)).

End ExportDialogStories.

Arguments TestContext : clear implicits.
Arguments DialogProps : clear implicits.

(** ** More inputs to run the code on *)

Module Cases.

(** The photo before [Demo.someProps], all else the same. *)
Definition previousProps : Props :=
  mkProps "view" (mkRef 3%nat (mkSize 800 600)) "/a.jpg" None (Some "/b.jpg")
    (Some Demo.metrics).

(** Props without camera metrics. *)
Definition noMetricsProps : Props :=
  mkProps "view" (mkRef 3%nat (mkSize 800 600)) "/b.jpg" (Some "/a.jpg") (Some "/c.jpg") None.


(** A component that shows "/a.jpg" and was just given the props of
    "/b.jpg", whose fetch failed. *)
Definition leaving : World Demo.Cache :=
  set_props Demo.someProps (Demo.showing previousProps [("/b.jpg", inr decode_failure)]).

(** A document with one listener left behind. *)
Definition document : PictureDetail.Document :=
  PictureDetail.mkDocument [PictureDetail.mkListener 0 4] 1.

End Cases.

(** ** Properties *)

Section Properties.

Context {Cache : Type} `{!TextureCacheOps Cache} `{!PhotoCanvasOps}.

Implicit Types (w : World Cache) (c : loc) (tc : Cache) (prevProps : PartialProps).

(** *** Running computations *)

Lemma exec_bind {A B} (m : M A) (k : A -> M B) w :
  exec (bind m k) w = exec (k (result m w)) (exec m w).
Proof.
  unfold exec, result, bind. destruct (m w) as [[a w1] es1]. simpl.
  destruct (k a w1) as [[b w2] es2]. reflexivity.
Qed.

Lemma calls_bind {A B} (m : M A) (k : A -> M B) w :
  calls (bind m k) w = calls m w ++ calls (k (result m w)) (exec m w).
Proof.
  unfold exec, calls, result, bind. destruct (m w) as [[a w1] es1]. simpl.
  destruct (k a w1) as [[b w2] es2]. reflexivity.
Qed.

Lemma result_bind {A B} (m : M A) (k : A -> M B) w :
  result (bind m k) w = result (k (result m w)) (exec m w).
Proof.
  unfold exec, result, bind. destruct (m w) as [[a w1] es1]. simpl.
  destruct (k a w1) as [[b w2] es2]. reflexivity.
Qed.

Lemma run_eta {A} (m : M A) w : m w = (result m w, exec m w, calls m w).
Proof. unfold result, exec, calls. by destruct (m w) as [[a w1] es]. Qed.

Lemma set_prevLoadingState_same w :
  set_prevLoadingState (prevLoadingState w) w = w.
Proof. by destruct w. Qed.

Lemma setLoadingState_run s w :
  setLoadingState s w = (tt, set_prevLoadingState (Some s) w, notified w s).
Proof.
  unfold setLoadingState, notified, bind, get, when, modify, emit, ret.
  simpl. destruct (decide (prevLoadingState w = Some s)) as [E|E].
  - rewrite !bool_decide_eq_true_2 by done. simpl.
    by rewrite <- E, set_prevLoadingState_same.
  - rewrite !bool_decide_eq_false_2 by done. simpl. done.
Qed.

Lemma setLoadingState_calls s w : calls (setLoadingState s) w = notified w s.
Proof. unfold calls. by rewrite setLoadingState_run. Qed.

Lemma setLoadingState_exec s w :
  exec (setLoadingState s) w = set_prevLoadingState (Some s) w.
Proof. unfold exec. by rewrite setLoadingState_run. Qed.

Lemma setLoadingStates_calls states : ∀ w,
  calls (setLoadingStates states) w
    = OnLoadingStateChange <$> notifications (prevLoadingState w) states.
Proof.
  induction states as [|s rest IH]; intros w; [done|].
  cbn [setLoadingStates notifications].
  rewrite calls_bind, setLoadingState_calls, IH, setLoadingState_exec.
  unfold notified. cbn [prevLoadingState set_prevLoadingState].
  case_bool_decide as E; [|done]. by rewrite E.
Qed.

Lemma setLoadingStates_prev states : ∀ w,
  prevLoadingState (exec (setLoadingStates states) w)
    = last (prevLoadingState w :: (Some <$> states)) ≫= id.
Proof.
  induction states as [|s rest IH]; intros w.
  - cbn. by destruct (prevLoadingState w).
  - cbn [setLoadingStates]. rewrite exec_bind, IH, setLoadingState_exec.
    cbn [prevLoadingState set_prevLoadingState]. rewrite fmap_cons.
    by rewrite last_cons_cons.
Qed.

(** *** [updateCanvas] by cases *)

Ltac run_prims :=
  unfold cache_setImagesToFetch, cache_getTextureError, cache_getTexture,
    canvas_setBaseTexture, canvas_setClipRect, canvas_setSize,
    canvas_setProjectionMatrix, canvas_setCameraMatrix, canvas_update,
    canvas_isValid, elem_setClassName, elem_setDisplay, elem_setWidth,
    elem_setHeight, elem_appendChild, elem_removeChild, setTimeout,
    clearTimeout, onCanvas, when, bind, get, emit, modify, ret;
  cbn beta iota zeta delta [fst snd app props canvas textureCache canvasImagePath
    deferredHideCanvasTimeout prevLoadingState heap timers nextTimerId
    set_props set_canvas set_textureCache set_canvasImagePath
    set_deferredHideCanvasTimeout set_prevLoadingState set_heap set_timers
    set_nextTimerId fmap option_fmap option_map mbind option_bind].

(** Splits a membership in an explicit list of calls into its cases. *)
Ltac in_calls H :=
  repeat match type of H with
  | _ ∈ _ ++ _ => apply elem_of_app in H as [H|H]
  | _ ∈ _ :: _ => apply elem_of_cons in H as [H|H]; [try discriminate H|]
  | _ ∈ [] => apply elem_of_nil in H; destruct H
  end.

Lemma updateCanvas_unmounted prevProps w :
  canvas w = None ∨ textureCache w = None →
  updateCanvas prevProps w = (tt, w, []).
Proof.
  unfold updateCanvas, bind, get. simpl.
  intros [E|E]; rewrite E; [done|]. by destruct (canvas w).
Qed.

Lemma updateCanvas_error prevProps w c tc err :
  canvas w = Some c → textureCache w = Some tc →
  getTextureError (setImagesToFetch (imagesToFetch (props w)) tc) (imagePath (props w)) = Some err →
  updateCanvas prevProps w
  = (tt, set_prevLoadingState (Some (failed err)) (hidden c (afterInterest w tc)),
     [CacheSetImagesToFetch (imagesToFetch (props w));
      CacheGetTextureError (imagePath (props w));
      ElemSetDisplay c "none"] ++ notified w (failed err)).
Proof.
  intros Ec Etc Eerr. unfold imagesToFetch in Eerr.
  unfold updateCanvas. run_prims. rewrite Ec, Etc. run_prims.
  rewrite ?Etc. run_prims. rewrite Eerr, setLoadingState_run. done.
Qed.

Lemma updateCanvas_no_error prevProps w c tc :
  canvas w = Some c → textureCache w = Some tc →
  getTextureError (setImagesToFetch (imagesToFetch (props w)) tc) (imagePath (props w)) = None →
  updateCanvas prevProps w
  = (tt,
     exec (updateCanvas_present c (result (updateCanvas_apply c prevProps) (afterInterest w tc)))
       (exec (updateCanvas_apply c prevProps) (afterInterest w tc)),
     [CacheSetImagesToFetch (imagesToFetch (props w));
      CacheGetTextureError (imagePath (props w))]
     ++ calls (updateCanvas_apply c prevProps) (afterInterest w tc)
     ++ calls (updateCanvas_present c (result (updateCanvas_apply c prevProps) (afterInterest w tc)))
          (exec (updateCanvas_apply c prevProps) (afterInterest w tc))).
Proof.
  intros Ec Etc Eerr. unfold imagesToFetch in Eerr.
  unfold updateCanvas. run_prims. rewrite Ec, Etc. run_prims.
  rewrite ?Etc. run_prims. rewrite Eerr. fold (imagesToFetch (props w)). fold (afterInterest w tc).
  rewrite (run_eta (updateCanvas_apply c prevProps)).
  rewrite (run_eta (updateCanvas_present c _)). by destruct (result (updateCanvas_present _ _) _).
Qed.

Lemma updateCanvas_texture_run c w :
  updateCanvas_texture c w
  = if differentString (imagePath (props w)) (canvasImagePath w) then
      (true,
       set_canvasImagePath (currentTexture w ≫= fun _ => Some (imagePath (props w)))
         (set_heap (alter (withBaseTexture (currentTexture w)) c (heap w)) w),
       [CacheGetTexture (imagePath (props w));
        CanvasSetBaseTexture c (currentTexture w) false] ++ sizeNotified (currentTexture w))
    else (false, w, []).
Proof.
  unfold updateCanvas_texture, currentTexture. run_prims.
  destruct (differentString _ _); [|done]. run_prims.
  by destruct (textureCache w ≫= _).
Qed.

Lemma updateCanvas_bodySize_run c prevProps w :
  updateCanvas_bodySize c prevProps w
  = if differentFromOptional (bodySize (props w)) (prev_bodySize prevProps) then
      (tt,
       set_heap (alter (onElement (withHeight (px (height (deref (bodySize (props w)))))))
                   c (alter (onElement (withWidth (px (width (deref (bodySize (props w)))))))
                        c (heap w))) w,
       [ElemSetWidth c (px (width (deref (bodySize (props w)))));
        ElemSetHeight c (px (height (deref (bodySize (props w)))))])
    else (tt, w, []).
Proof.
  unfold updateCanvas_bodySize. run_prims.
  by destruct (differentFromOptional _ _).
Qed.

Lemma updateCanvas_clipRect_run c prevProps w :
  updateCanvas_clipRect c prevProps w
  = if viewChanged prevProps (props w) then
      (true, set_heap (alter (withClipRect (clipRectOf (props w))) c (heap w)) w,
       [CanvasSetClipRect c (clipRectOf (props w))])
    else (false, w, []).
Proof.
  unfold updateCanvas_clipRect, viewChanged, clipRectOf. run_prims.
  by destruct (_ || _).
Qed.

Lemma updateCanvas_cameraMetrics_run c prevProps w :
  updateCanvas_cameraMetrics c prevProps w
  = if differentNullable (cameraMetrics (props w)) (prev_cameraMetrics prevProps) then
      (true, set_heap (alter (pushMetrics (props w)) c (heap w)) w,
       pushMetricsCalls c (props w))
    else (false, w, []).
Proof.
  unfold updateCanvas_cameraMetrics, pushMetrics, pushMetricsCalls. run_prims.
  destruct (differentNullable _ _); [|done].
  destruct (cameraMetrics (props w)); run_prims.
  - by rewrite !list_alter_alter_eq.
  - rewrite list_alter_id by done. by destruct w.
Qed.

Lemma set_heap_same w : set_heap (heap w) w = w.
Proof. by destruct w. Qed.

Lemma set_canvasImagePath_same w : set_canvasImagePath (canvasImagePath w) w = w.
Proof. by destruct w. Qed.

Lemma updateCanvas_apply_run c prevProps w :
  updateCanvas_apply c prevProps w
  = (canvasChangedBy prevProps w, applied c prevProps w, applyCalls c prevProps w).
Proof.
  unfold updateCanvas_apply, bind.
  rewrite updateCanvas_texture_run.
  unfold canvasChangedBy, applied, applyToCanvas, applyCalls, appliedImagePath, currentTexture.
  destruct (differentString _ _) eqn:E1;
    rewrite updateCanvas_bodySize_run; cbn [props set_canvasImagePath set_heap];
    destruct (differentFromOptional _ _) eqn:E2;
    rewrite updateCanvas_clipRect_run; cbn [props set_canvasImagePath set_heap];
    destruct (viewChanged _ _) eqn:E3;
    rewrite updateCanvas_cameraMetrics_run; cbn [props set_canvasImagePath set_heap];
    destruct (differentNullable _ _) eqn:E4;
    unfold ret; cbn [heap set_heap set_canvasImagePath app orb];
    rewrite ?list_alter_alter_eq, ?app_nil_r; try reflexivity;
    rewrite ?(list_alter_id (fun cv => cv)) by done;
    rewrite ?set_heap_same, ?set_canvasImagePath_same; try reflexivity.
Qed.

Lemma updateCanvas_apply_exec c prevProps w :
  exec (updateCanvas_apply c prevProps) w = applied c prevProps w.
Proof. unfold exec. by rewrite updateCanvas_apply_run. Qed.

Lemma updateCanvas_apply_result c prevProps w :
  result (updateCanvas_apply c prevProps) w = canvasChangedBy prevProps w.
Proof. unfold result. by rewrite updateCanvas_apply_run. Qed.

Lemma updateCanvas_apply_calls c prevProps w :
  calls (updateCanvas_apply c prevProps) w = applyCalls c prevProps w.
Proof. unfold calls. by rewrite updateCanvas_apply_run. Qed.

(** *** Showing and hiding *)

Lemma showCanvas_run c w :
  showCanvas c w
  = (tt, shown c w,
     cancelCalls w ++ [CanvasUpdate c; ElemSetDisplay c "block"] ++ notified w done).
Proof.
  unfold showCanvas, shown, cancelled, cancelCalls. run_prims.
  destruct (deferredHideCanvasTimeout w) as [id|] eqn:E; run_prims;
    rewrite setLoadingState_run; unfold notified; run_prims;
    by rewrite list_alter_alter_eq.
Qed.

Lemma updateCanvas_present_run c changed w :
  updateCanvas_present c changed w
  = if changed then
      if showable c w then
        (tt, shown c w,
         askValid c w ++ cancelCalls w
         ++ [CanvasUpdate c; ElemSetDisplay c "block"] ++ notified w done)
      else (tt, deferred c w, askValid c w ++ deferCalls w)
    else (tt, w, []).
Proof.
  unfold updateCanvas_present, showable, askValid, deferred, deferCalls.
  destruct changed; [|done]. run_prims.
  destruct (cameraMetrics (props w)); run_prims.
  - destruct (from_option isValid false (heap w !! c)).
    + by rewrite showCanvas_run.
    + destruct (deferredHideCanvasTimeout w); by run_prims.
  - destruct (deferredHideCanvasTimeout w); by run_prims.
Qed.

Lemma deferredHide_run t w :
  deferredHide t w
  = (tt,
     set_prevLoadingState (Some loading)
       (hidden (timeout_canvas t) (set_deferredHideCanvasTimeout None w)),
     ElemSetDisplay (timeout_canvas t) "none" :: notified w loading).
Proof.
  unfold deferredHide, hidden. run_prims. by rewrite setLoadingState_run.
Qed.

(** C6: loading-state notifications are deduplicated.  Setting a list of
    states in order calls [onLoadingStateChange] exactly for the states that
    differ from the last one notified; afterwards the last state set is the
    last one notified; the same state set twice in a row is notified once (or
    not at all when it was the last one notified already); and the first
    state ever set is always notified. *)
Theorem C6_loading_state_notifications_deduplicated w states :
  calls (setLoadingStates states) w
    = OnLoadingStateChange <$> notifications (prevLoadingState w) states
  ∧ prevLoadingState (exec (setLoadingStates states) w)
    = last (prevLoadingState w :: (Some <$> states)) ≫= id
  ∧ (∀ s, calls (setLoadingStates [s; s]) w
          = if bool_decide (prevLoadingState w = Some s) then []
            else [OnLoadingStateChange s])
  ∧ (∀ s rest, prevLoadingState w = None →
       ∃ more, calls (setLoadingStates (s :: rest)) w = OnLoadingStateChange s :: more).
Proof.
  split_and!.
  - apply setLoadingStates_calls.
  - apply setLoadingStates_prev.
  - intros s. rewrite setLoadingStates_calls. cbn [notifications].
    unfold notified. case_bool_decide as E; cbn; [done|].
    by rewrite bool_decide_eq_true_2.
  - intros s rest E. rewrite setLoadingStates_calls, E. cbn [notifications].
    rewrite bool_decide_eq_false_2 by done. rewrite fmap_cons. eauto.
Qed.


Lemma updateCanvas_run prevProps w c tc :
  canvas w = Some c → textureCache w = Some tc →
  getTextureError (setImagesToFetch (imagesToFetch (props w)) tc) (imagePath (props w)) = None →
  updateCanvas prevProps w
  = (tt,
     exec (updateCanvas_present c (canvasChangedBy prevProps (afterInterest w tc)))
       (applied c prevProps (afterInterest w tc)),
     [CacheSetImagesToFetch (imagesToFetch (props w));
      CacheGetTextureError (imagePath (props w))]
     ++ applyCalls c prevProps (afterInterest w tc)
     ++ calls (updateCanvas_present c (canvasChangedBy prevProps (afterInterest w tc)))
          (applied c prevProps (afterInterest w tc))).
Proof.
  intros Ec Etc Eerr. rewrite (updateCanvas_no_error _ _ _ _ Ec Etc Eerr).
  by rewrite updateCanvas_apply_exec, updateCanvas_apply_result, updateCanvas_apply_calls.
Qed.

Lemma updateCanvas_shown prevProps w c tc :
  canvas w = Some c → textureCache w = Some tc →
  getTextureError (setImagesToFetch (imagesToFetch (props w)) tc) (imagePath (props w)) = None →
  canvasChangedBy prevProps (afterInterest w tc) = true →
  showable c (applied c prevProps (afterInterest w tc)) = true →
  updateCanvas prevProps w
  = (tt, shown c (applied c prevProps (afterInterest w tc)),
     [CacheSetImagesToFetch (imagesToFetch (props w));
      CacheGetTextureError (imagePath (props w))]
     ++ applyCalls c prevProps (afterInterest w tc)
     ++ askValid c (applied c prevProps (afterInterest w tc))
     ++ cancelCalls (applied c prevProps (afterInterest w tc))
     ++ [CanvasUpdate c; ElemSetDisplay c "block"]
     ++ notified (applied c prevProps (afterInterest w tc)) done).
Proof.
  intros Ec Etc Eerr Hch Hshow. rewrite (updateCanvas_run _ _ _ _ Ec Etc Eerr).
  unfold exec, calls. rewrite updateCanvas_present_run, Hch, Hshow. done.
Qed.

Lemma updateCanvas_deferred prevProps w c tc :
  canvas w = Some c → textureCache w = Some tc →
  getTextureError (setImagesToFetch (imagesToFetch (props w)) tc) (imagePath (props w)) = None →
  canvasChangedBy prevProps (afterInterest w tc) = true →
  showable c (applied c prevProps (afterInterest w tc)) = false →
  updateCanvas prevProps w
  = (tt, deferred c (applied c prevProps (afterInterest w tc)),
     [CacheSetImagesToFetch (imagesToFetch (props w));
      CacheGetTextureError (imagePath (props w))]
     ++ applyCalls c prevProps (afterInterest w tc)
     ++ askValid c (applied c prevProps (afterInterest w tc))
     ++ deferCalls (applied c prevProps (afterInterest w tc))).
Proof.
  intros Ec Etc Eerr Hch Hshow. rewrite (updateCanvas_run _ _ _ _ Ec Etc Eerr).
  unfold exec, calls. rewrite updateCanvas_present_run, Hch, Hshow. done.
Qed.

Lemma updateCanvas_unchanged prevProps w c tc :
  canvas w = Some c → textureCache w = Some tc →
  getTextureError (setImagesToFetch (imagesToFetch (props w)) tc) (imagePath (props w)) = None →
  canvasChangedBy prevProps (afterInterest w tc) = false →
  updateCanvas prevProps w
  = (tt, applied c prevProps (afterInterest w tc),
     [CacheSetImagesToFetch (imagesToFetch (props w));
      CacheGetTextureError (imagePath (props w))]
     ++ applyCalls c prevProps (afterInterest w tc)).
Proof.
  intros Ec Etc Eerr Hch. rewrite (updateCanvas_run _ _ _ _ Ec Etc Eerr).
  unfold exec, calls. rewrite updateCanvas_present_run, Hch. cbn [fst snd].
  by rewrite app_nil_r.
Qed.

Lemma updateCanvas_by_cases prevProps w :
  (updateCanvas prevProps w = (tt, w, []))
  ∨ (∃ c tc, canvas w = Some c ∧ textureCache w = Some tc ∧
      ((∃ err, updateCanvas prevProps w
          = (tt, set_prevLoadingState (Some (failed err)) (hidden c (afterInterest w tc)),
             [CacheSetImagesToFetch (imagesToFetch (props w));
              CacheGetTextureError (imagePath (props w));
              ElemSetDisplay c "none"] ++ notified w (failed err)))
       ∨ (getTextureError (setImagesToFetch (imagesToFetch (props w)) tc)
            (imagePath (props w)) = None ∧
          ((canvasChangedBy prevProps (afterInterest w tc) = false ∧
            updateCanvas prevProps w
            = (tt, applied c prevProps (afterInterest w tc),
               [CacheSetImagesToFetch (imagesToFetch (props w));
                CacheGetTextureError (imagePath (props w))]
               ++ applyCalls c prevProps (afterInterest w tc)))
           ∨ (canvasChangedBy prevProps (afterInterest w tc) = true ∧
              showable c (applied c prevProps (afterInterest w tc)) = true ∧
              updateCanvas prevProps w
              = (tt, shown c (applied c prevProps (afterInterest w tc)),
                 [CacheSetImagesToFetch (imagesToFetch (props w));
                  CacheGetTextureError (imagePath (props w))]
                 ++ applyCalls c prevProps (afterInterest w tc)
                 ++ askValid c (applied c prevProps (afterInterest w tc))
                 ++ cancelCalls (applied c prevProps (afterInterest w tc))
                 ++ [CanvasUpdate c; ElemSetDisplay c "block"]
                 ++ notified (applied c prevProps (afterInterest w tc)) done))
           ∨ (canvasChangedBy prevProps (afterInterest w tc) = true ∧
              showable c (applied c prevProps (afterInterest w tc)) = false ∧
              updateCanvas prevProps w
              = (tt, deferred c (applied c prevProps (afterInterest w tc)),
                 [CacheSetImagesToFetch (imagesToFetch (props w));
                  CacheGetTextureError (imagePath (props w))]
                 ++ applyCalls c prevProps (afterInterest w tc)
                 ++ askValid c (applied c prevProps (afterInterest w tc))
                 ++ deferCalls (applied c prevProps (afterInterest w tc)))))))).
Proof.
  destruct (canvas w) as [c|] eqn:Ec;
    [|left; apply updateCanvas_unmounted; by left].
  destruct (textureCache w) as [tc|] eqn:Etc;
    [|left; apply updateCanvas_unmounted; by right].
  right. exists c, tc. split_and!; [done..|].
  destruct (getTextureError (setImagesToFetch (imagesToFetch (props w)) tc)
              (imagePath (props w))) as [err|] eqn:Eerr.
  { left. exists err. by apply updateCanvas_error. }
  right. split; [done|].
  destruct (canvasChangedBy prevProps (afterInterest w tc)) eqn:Hch.
  - destruct (showable c (applied c prevProps (afterInterest w tc))) eqn:Hshow.
    + right. left. split_and!; [done..|]. by apply updateCanvas_shown.
    + right. right. split_and!; [done..|]. by apply updateCanvas_deferred.
  - left. split; [done|]. by apply updateCanvas_unchanged.
Qed.

(** *** What one update leaves alone *)

Lemma applied_frame c prevProps w :
  props (applied c prevProps w) = props w
  ∧ canvas (applied c prevProps w) = canvas w
  ∧ textureCache (applied c prevProps w) = textureCache w
  ∧ deferredHideCanvasTimeout (applied c prevProps w) = deferredHideCanvasTimeout w
  ∧ prevLoadingState (applied c prevProps w) = prevLoadingState w
  ∧ timers (applied c prevProps w) = timers w
  ∧ nextTimerId (applied c prevProps w) = nextTimerId w.
Proof. done. Qed.

Lemma cancelled_heap w : heap (cancelled w) = heap w.
Proof. unfold cancelled. by destruct (deferredHideCanvasTimeout w). Qed.

Lemma presented_textureCache c changed w :
  textureCache (exec (updateCanvas_present c changed) w) = textureCache w.
Proof.
  unfold exec. rewrite updateCanvas_present_run.
  destruct changed; [|done]. destruct (showable c w); cbn [fst snd].
  - unfold shown, cancelled. by destruct (deferredHideCanvasTimeout w).
  - unfold deferred. by destruct (deferredHideCanvasTimeout w).
Qed.

Lemma presented_canvasImagePath c changed w :
  canvasImagePath (exec (updateCanvas_present c changed) w) = canvasImagePath w.
Proof.
  unfold exec. rewrite updateCanvas_present_run.
  destruct changed; [|done]. destruct (showable c w); cbn [fst snd].
  - unfold shown, cancelled. by destruct (deferredHideCanvasTimeout w).
  - unfold deferred. by destruct (deferredHideCanvasTimeout w).
Qed.

Lemma presented_baseTexture c changed w c' :
  baseTexture <$> heap (exec (updateCanvas_present c changed) w) !! c'
  = baseTexture <$> heap w !! c'.
Proof.
  unfold exec. rewrite updateCanvas_present_run.
  destruct changed; [|done]. destruct (showable c w); cbn [fst snd].
  - unfold shown. cbn [heap set_prevLoadingState set_heap].
    destruct (decide (c = c')) as [->|Hne].
    + rewrite list_lookup_alter_eq. by destruct (heap w !! c').
    + by rewrite list_lookup_alter_ne.
  - unfold deferred. by destruct (deferredHideCanvasTimeout w).
Qed.

Lemma applyToCanvas_baseTexture prevProps w cv :
  baseTexture (applyToCanvas prevProps w cv)
  = if differentString (imagePath (props w)) (canvasImagePath w)
    then currentTexture w else baseTexture cv.
Proof.
  unfold applyToCanvas, pushMetrics.
  by repeat (simpl; case_match).
Qed.

(** C1 (as the code has it): while the canvas and the texture cache exist,
    every run of [updateCanvas] first of all declares interest to the cache
    as the list [imagePath, imagePathNext, imagePathPrev], null entries
    included, and the cache it holds afterwards is the one that call
    produced; without a canvas or a cache nothing is declared. *)
Theorem C1_declares_interest_first prevProps w :
  (∀ c tc, canvas w = Some c → textureCache w = Some tc →
     (∃ rest, calls (updateCanvas prevProps) w
        = CacheSetImagesToFetch
            [Some (imagePath (props w)); imagePathNext (props w); imagePathPrev (props w)]
          :: rest)
     ∧ textureCache (exec (updateCanvas prevProps) w)
       = Some (setImagesToFetch
                 [Some (imagePath (props w)); imagePathNext (props w); imagePathPrev (props w)]
                 tc))
  ∧ (canvas w = None ∨ textureCache w = None → calls (updateCanvas prevProps) w = []).
Proof.
  split.
  - intros c tc Ec Etc.
    destruct (getTextureError (setImagesToFetch (imagesToFetch (props w)) tc)
                (imagePath (props w))) as [err|] eqn:Eerr.
    + unfold calls, exec. rewrite (updateCanvas_error _ _ _ _ _ Ec Etc Eerr).
      split; [by eexists|done].
    + unfold calls, exec. rewrite (updateCanvas_no_error _ _ _ _ Ec Etc Eerr).
      split; [by eexists|]. cbn [fst snd].
      by rewrite presented_textureCache, updateCanvas_apply_exec.
  - intros E. unfold calls. by rewrite updateCanvas_unmounted.
Qed.

(** C2: when the cache reports an error for [imagePath], the update declares
    interest, asks for the error, hides the canvas element and sets the
    loading state to that error, and does nothing else: the calls are exactly
    these, whatever the camera metrics and the previous props are, and
    nothing of the world changes but the cache, the display of the element
    and the last loading state. *)
Theorem C2_error_hides_canvas_and_returns prevProps w c tc err :
  canvas w = Some c → textureCache w = Some tc →
  getTextureError
    (setImagesToFetch
       [Some (imagePath (props w)); imagePathNext (props w); imagePathPrev (props w)] tc)
    (imagePath (props w)) = Some err →
  calls (updateCanvas prevProps) w
  = [CacheSetImagesToFetch
       [Some (imagePath (props w)); imagePathNext (props w); imagePathPrev (props w)];
     CacheGetTextureError (imagePath (props w));
     ElemSetDisplay c "none"]
    ++ (if bool_decide (prevLoadingState w = Some (failed err)) then []
        else [OnLoadingStateChange (failed err)])
  ∧ exec (updateCanvas prevProps) w
    = set_prevLoadingState (Some (failed err))
        (set_heap (alter (onElement (withDisplay "none")) c (heap w))
           (set_textureCache
              (Some (setImagesToFetch
                 [Some (imagePath (props w)); imagePathNext (props w); imagePathPrev (props w)]
                 tc)) w))
  ∧ (style_display ∘ element <$> heap (exec (updateCanvas prevProps) w) !! c
     = (fun _ => "none") <$> heap w !! c).
Proof.
  intros Ec Etc Eerr. unfold calls, exec.
  rewrite (updateCanvas_error _ _ _ _ _ Ec Etc Eerr). cbn [fst snd].
  split_and!; [done|done|].
  unfold hidden, afterInterest. cbn [heap set_prevLoadingState set_heap set_textureCache].
  rewrite list_lookup_alter_eq. by destruct (heap w !! c).
Qed.

(** C3: with no error for [imagePath] and a canvas that shows another key
    (or none), the update asks the cache for the texture of [imagePath] and
    hands the answer to [setBaseTexture]; a texture becomes the base texture,
    [imagePath] the key shown, and the texture-size observer is told its
    width and height; without a texture the base texture is unset and no key
    is shown; either way [canvasChanged] is set. *)
Theorem C3_rebinds_base_texture prevProps w c tc :
  canvas w = Some c → textureCache w = Some tc →
  getTextureError
    (setImagesToFetch
       [Some (imagePath (props w)); imagePathNext (props w); imagePathPrev (props w)] tc)
    (imagePath (props w)) = None →
  canvasImagePath w ≠ Some (imagePath (props w)) →
  let texture :=
    getTexture
      (setImagesToFetch
         [Some (imagePath (props w)); imagePathNext (props w); imagePathPrev (props w)] tc)
      (imagePath (props w)) in
  (∃ rest, calls (updateCanvas prevProps) w
     = [CacheSetImagesToFetch
          [Some (imagePath (props w)); imagePathNext (props w); imagePathPrev (props w)];
        CacheGetTextureError (imagePath (props w));
        CacheGetTexture (imagePath (props w));
        CanvasSetBaseTexture c texture false]
       ++ match texture with
          | Some t => [OnTextureChange (mkSize (tex_width t) (tex_height t))]
          | None => []
          end
       ++ rest)
  ∧ canvasImagePath (exec (updateCanvas prevProps) w)
    = match texture with Some _ => Some (imagePath (props w)) | None => None end
  ∧ (baseTexture <$> heap (exec (updateCanvas prevProps) w) !! c
     = (fun _ => texture) <$> heap w !! c)
  ∧ result (updateCanvas_apply c prevProps) (afterInterest w tc) = true.
Proof.
  intros Ec Etc Eerr Hkey texture.
  assert (differentString (imagePath (props w)) (canvasImagePath w) = true) as Ed.
  { unfold differentString. by rewrite bool_decide_eq_false_2. }
  unfold calls, exec, result.
  rewrite (updateCanvas_no_error _ _ _ _ Ec Etc Eerr). cbn [fst snd].
  rewrite updateCanvas_apply_exec, updateCanvas_apply_result, updateCanvas_apply_calls.
  fold (result (updateCanvas_apply c prevProps) (afterInterest w tc)).
  rewrite updateCanvas_apply_result.
  split_and!.
  - unfold applyCalls. cbn [props canvasImagePath afterInterest set_textureCache].
    rewrite Ed. eexists. cbn [app]. rewrite <- !app_assoc. reflexivity.
  - fold (exec (updateCanvas_present c (canvasChangedBy prevProps (afterInterest w tc)))
            (applied c prevProps (afterInterest w tc))).
    rewrite presented_canvasImagePath. unfold applied, appliedImagePath.
    cbn [props canvasImagePath afterInterest set_textureCache set_canvasImagePath].
    rewrite Ed. unfold currentTexture, imagesToFetch. subst texture. cbn.
    by destruct (getTexture _ _).
  - fold (exec (updateCanvas_present c (canvasChangedBy prevProps (afterInterest w tc)))
            (applied c prevProps (afterInterest w tc))).
    rewrite presented_baseTexture. unfold applied.
    cbn [heap set_canvasImagePath set_heap afterInterest set_textureCache].
    rewrite list_lookup_alter_eq. destruct (heap w !! c) as [cv|]; [|done].
    cbn. f_equal. rewrite applyToCanvas_baseTexture.
    cbn [props canvasImagePath afterInterest set_textureCache]. by rewrite Ed.
  - unfold canvasChangedBy. cbn [props canvasImagePath afterInterest set_textureCache].
    by rewrite Ed.
Qed.

(** C4: when [canvasChanged] was set, the camera metrics are there and the
    canvas answers that it is valid, the update clears the pending deferred
    hide (if any), redraws with [update()], shows the canvas element and sets
    the loading state to [done], in this order and after asking
    [isValid()]. *)
Theorem C4_shows_changed_valid_canvas prevProps w c tc :
  canvas w = Some c → textureCache w = Some tc →
  getTextureError
    (setImagesToFetch
       [Some (imagePath (props w)); imagePathNext (props w); imagePathPrev (props w)] tc)
    (imagePath (props w)) = None →
  result (updateCanvas_apply c prevProps) (afterInterest w tc) = true →
  is_Some (cameraMetrics (props w)) →
  from_option isValid false
    (heap (exec (updateCanvas_apply c prevProps) (afterInterest w tc)) !! c) = true →
  calls (updateCanvas prevProps) w
  = [CacheSetImagesToFetch
       [Some (imagePath (props w)); imagePathNext (props w); imagePathPrev (props w)];
     CacheGetTextureError (imagePath (props w))]
    ++ calls (updateCanvas_apply c prevProps) (afterInterest w tc)
    ++ [CanvasIsValid c]
    ++ match deferredHideCanvasTimeout w with
       | Some id => [ClearTimeout id]
       | None => []
       end
    ++ [CanvasUpdate c; ElemSetDisplay c "block"]
    ++ (if bool_decide (prevLoadingState w = Some done) then []
        else [OnLoadingStateChange done])
  ∧ deferredHideCanvasTimeout (exec (updateCanvas prevProps) w) = None
  ∧ timers (exec (updateCanvas prevProps) w)
    = match deferredHideCanvasTimeout w with
      | Some id => filter (fun t => timeout_id t ≠ id) (timers w)
      | None => timers w
      end
  ∧ heap (exec (updateCanvas prevProps) w) !! c
    = (fun cv => onElement (withDisplay "block") (redrawn cv))
      <$> heap (exec (updateCanvas_apply c prevProps) (afterInterest w tc)) !! c
  ∧ (∃ cv, heap (exec (updateCanvas prevProps) w) !! c = Some cv
           ∧ style_display (element cv) = "block")
  ∧ prevLoadingState (exec (updateCanvas prevProps) w) = Some done.
Proof.
  intros Ec Etc Eerr Hchanged [cm Hcm] Hvalid.
  rewrite updateCanvas_apply_exec, ?updateCanvas_apply_calls, ?updateCanvas_apply_result in *.
  assert (showable c (applied c prevProps (afterInterest w tc)) = true) as Hshow.
  { unfold showable. cbn [props applied afterInterest set_textureCache set_canvasImagePath set_heap].
    by rewrite Hcm. }
  unfold calls, exec.
  rewrite (updateCanvas_shown _ _ _ _ Ec Etc Eerr Hchanged Hshow). cbn [fst snd].
  unfold shown, cancelled, cancelCalls, askValid, notified.
  cbn [props applied afterInterest set_textureCache set_canvasImagePath set_heap
       deferredHideCanvasTimeout prevLoadingState timers].
  rewrite Hcm.
  split_and!.
  - done.
  - by destruct (deferredHideCanvasTimeout w) eqn:E; cbn.
  - by destruct (deferredHideCanvasTimeout w) eqn:E; cbn.
  - cbn [heap set_prevLoadingState set_heap]. apply list_lookup_alter_eq.
  - cbn [heap set_prevLoadingState set_heap].
    rewrite list_lookup_alter_eq.
    destruct (heap (applied c prevProps (afterInterest w tc)) !! c) as [cv|]; [|done].
    by eexists.
  - done.
Qed.

(** *** Callbacks *)

Lemma onTextureFetched_run key texture w :
  onTextureFetched key texture w
  = (tt, exec (updateCanvas (asPartial (props w))) w,
     (if bool_decide (key = imagePath (props w)) then sizeNotified texture else [])
     ++ calls (updateCanvas (asPartial (props w))) w).
Proof.
  unfold onTextureFetched, sizeNotified. run_prims.
  destruct texture as [t|]; run_prims.
  - destruct (bool_decide (key = imagePath (props w))); run_prims;
      rewrite (run_eta (updateCanvas _)); by destruct (result _ _).
  - rewrite (run_eta (updateCanvas _)). by destruct (bool_decide _), (result _ _).
Qed.

Lemma fireTimeout_pending id w i t :
  list_find (fun t => timeout_id t = id) (timers w) = Some (i, t) →
  fireTimeout id w
  = (tt,
     set_prevLoadingState (Some loading)
       (set_heap (alter (onElement (withDisplay "none")) (timeout_canvas t) (heap w))
          (set_deferredHideCanvasTimeout None
             (set_timers (filter (fun t => timeout_id t ≠ id) (timers w)) w))),
     ElemSetDisplay (timeout_canvas t) "none" :: notified w loading).
Proof.
  intros E. unfold fireTimeout. run_prims. rewrite E. run_prims.
  by rewrite deferredHide_run.
Qed.

Lemma fireTimeout_not_pending id w :
  list_find (fun t => timeout_id t = id) (timers w) = None →
  fireTimeout id w = (tt, w, []).
Proof. intros E. unfold fireTimeout. run_prims. by rewrite E. Qed.

Lemma differentNullable_same {A} (a : option (ref A)) :
  differentNullable a (Some a) = false.
Proof.
  destruct a; [|done]. unfold differentNullable, differentObject.
  by rewrite bool_decide_eq_true_2.
Qed.

Lemma rerun_no_size_notification w textureSize :
  canvasImagePath w = Some (imagePath (props w)) →
  OnTextureChange textureSize ∉ calls (updateCanvas (asPartial (props w))) w.
Proof.
  intros Hkey Hin. unfold calls in Hin.
  assert (differentString (imagePath (props w)) (canvasImagePath w) = false) as Ed.
  { unfold differentString. by rewrite bool_decide_eq_true_2. }
  assert (∀ c tc, applyCalls c (asPartial (props w)) (afterInterest w tc) = []) as Happly.
  { intros c tc. unfold applyCalls, viewChanged.
    cbn [props canvasImagePath afterInterest set_textureCache asPartial
         prev_mode prev_bodySize prev_cameraMetrics differentFromOptional].
    rewrite Ed, differentNullable_same, bool_decide_eq_true_2 by done.
    unfold differentObject. by rewrite bool_decide_eq_true_2. }
  assert (∀ tc, canvasChangedBy (asPartial (props w)) (afterInterest w tc) = false) as Hch.
  { intros tc. unfold canvasChangedBy, viewChanged.
    cbn [props canvasImagePath afterInterest set_textureCache asPartial
         prev_mode prev_cameraMetrics].
    by rewrite Ed, differentNullable_same, bool_decide_eq_true_2. }
  destruct (updateCanvas_by_cases (asPartial (props w)) w)
    as [E|(c & tc & Ec & Etc & [[err E]|(Eerr & [[_ E]|[(Hch' & _)|(Hch' & _)]])])];
    try (rewrite Hch in Hch'; discriminate Hch');
    rewrite E in Hin; cbn [fst snd] in Hin.
  - in_calls Hin.
  - unfold notified in Hin. destruct (bool_decide _); in_calls Hin.
  - rewrite Happly in Hin. in_calls Hin.
Qed.

(** C7: a completed fetch re-runs [updateCanvas] with the current props as
    the previous ones, whatever key and texture it delivers.  Before that
    run, and only when the key is the current [imagePath] and a texture came
    with it, the texture-size observer is told the width and height; a
    completion for a neighbour or a failed fetch makes exactly the calls of
    the re-run.  In the re-run neither body size, mode nor camera metrics
    count as changed, so that with [imagePath] already on the canvas the
    only size notification a completion can cause is the one for the texture
    it delivers. *)
Theorem C7_fetch_completion_reruns_update key texture w :
  calls (onTextureFetched key texture) w
  = match texture with
    | Some t =>
        if bool_decide (key = imagePath (props w))
        then [OnTextureChange (mkSize (tex_width t) (tex_height t))] else []
    | None => []
    end
    ++ calls (updateCanvas (asPartial (props w))) w
  ∧ exec (onTextureFetched key texture) w = exec (updateCanvas (asPartial (props w))) w
  ∧ (key ≠ imagePath (props w) ∨ texture = None →
     calls (onTextureFetched key texture) w = calls (updateCanvas (asPartial (props w))) w)
  ∧ differentFromOptional (bodySize (props w)) (prev_bodySize (asPartial (props w))) = false
  ∧ viewChanged (asPartial (props w)) (props w) = false
  ∧ (canvasImagePath w = Some (imagePath (props w)) →
     ∀ textureSize, OnTextureChange textureSize ∈ calls (onTextureFetched key texture) w →
       key = imagePath (props w)
       ∧ ∃ t, texture = Some t ∧ textureSize = mkSize (tex_width t) (tex_height t)).
Proof.
  assert (differentFromOptional (bodySize (props w)) (prev_bodySize (asPartial (props w)))
          = false) as Hbody.
  { cbn. unfold differentObject. by rewrite bool_decide_eq_true_2. }
  assert (viewChanged (asPartial (props w)) (props w) = false) as Hview.
  { unfold viewChanged. cbn [asPartial prev_mode prev_cameraMetrics].
    by rewrite bool_decide_eq_true_2, differentNullable_same. }
  unfold calls at 1 3 5, exec at 1. rewrite onTextureFetched_run. cbn [fst snd].
  split_and!; try done.
  - unfold sizeNotified. destruct texture; [done|]. by destruct (bool_decide _).
  - intros [Hk| ->].
    + by rewrite bool_decide_eq_false_2.
    + unfold sizeNotified. by destruct (bool_decide _).
  - intros Hkey textureSize Hin.
    apply elem_of_app in Hin as [Hin|Hin].
    + case_bool_decide as Hk; [|in_calls Hin]. split; [done|].
      unfold sizeNotified in Hin. destruct texture as [t|]; in_calls Hin.
      injection Hin as ->. by eexists.
    + exfalso. by apply (rerun_no_size_notification w textureSize Hkey).
Qed.

(** C8: when the canvas already shows [imagePath], there is no error, and of
    the previous props only [bodySize] is another object, the update writes
    the width and height of the canvas element and nothing else: the base
    texture is not set again, [canvasChanged] stays unset, nothing is
    redrawn, no timer is touched, and the loading state and the display of
    the element stay as they were. *)
Theorem C8_body_size_only_resizes_element prevProps w c tc :
  canvas w = Some c → textureCache w = Some tc →
  getTextureError
    (setImagesToFetch
       [Some (imagePath (props w)); imagePathNext (props w); imagePathPrev (props w)] tc)
    (imagePath (props w)) = None →
  canvasImagePath w = Some (imagePath (props w)) →
  prev_mode prevProps = Some (mode (props w)) →
  differentNullable (cameraMetrics (props w)) (prev_cameraMetrics prevProps) = false →
  differentFromOptional (bodySize (props w)) (prev_bodySize prevProps) = true →
  calls (updateCanvas prevProps) w
  = [CacheSetImagesToFetch
       [Some (imagePath (props w)); imagePathNext (props w); imagePathPrev (props w)];
     CacheGetTextureError (imagePath (props w));
     ElemSetWidth c (px (width (deref (bodySize (props w)))));
     ElemSetHeight c (px (height (deref (bodySize (props w)))))]
  ∧ exec (updateCanvas prevProps) w
    = set_heap
        (alter (fun cv =>
                  onElement (withHeight (px (height (deref (bodySize (props w))))))
                    (onElement (withWidth (px (width (deref (bodySize (props w)))))) cv))
           c (heap w))
        (set_textureCache
           (Some (setImagesToFetch
              [Some (imagePath (props w)); imagePathNext (props w); imagePathPrev (props w)]
              tc)) w)
  ∧ result (updateCanvas_apply c prevProps) (afterInterest w tc) = false
  ∧ prevLoadingState (exec (updateCanvas prevProps) w) = prevLoadingState w
  ∧ (style_display ∘ element <$> heap (exec (updateCanvas prevProps) w) !! c
     = style_display ∘ element <$> heap w !! c)
  ∧ (baseTexture <$> heap (exec (updateCanvas prevProps) w) !! c
     = baseTexture <$> heap w !! c).
Proof.
  intros Ec Etc Eerr Hkey Hmode Hcm Hbody.
  assert (differentString (imagePath (props w)) (canvasImagePath w) = false) as Ed.
  { unfold differentString. by rewrite bool_decide_eq_true_2. }
  assert (viewChanged prevProps (props w) = false) as Hview.
  { unfold viewChanged. by rewrite bool_decide_eq_true_2, Hcm. }
  assert (canvasChangedBy prevProps (afterInterest w tc) = false) as Hch.
  { unfold canvasChangedBy. cbn [props canvasImagePath afterInterest set_textureCache].
    by rewrite Ed, Hview, Hcm. }
  rewrite updateCanvas_apply_result.
  assert (updateCanvas prevProps w
          = (tt,
             set_heap
               (alter (fun cv =>
                  onElement (withHeight (px (height (deref (bodySize (props w))))))
                    (onElement (withWidth (px (width (deref (bodySize (props w)))))) cv))
                  c (heap w))
               (afterInterest w tc),
             [CacheSetImagesToFetch (imagesToFetch (props w));
              CacheGetTextureError (imagePath (props w));
              ElemSetWidth c (px (width (deref (bodySize (props w)))));
              ElemSetHeight c (px (height (deref (bodySize (props w)))))])) as Hrun.
  { rewrite (updateCanvas_unchanged _ _ _ _ Ec Etc Eerr Hch).
    unfold applied, appliedImagePath, applyToCanvas, applyCalls.
    cbn [props canvasImagePath heap afterInterest set_textureCache].
    rewrite Ed, Hview, Hcm, Hbody. cbn [app].
    by f_equal. }
  unfold calls, exec. rewrite Hrun. cbn [fst snd].
  split_and!; try done.
  - cbn [heap set_heap afterInterest set_textureCache].
    rewrite list_lookup_alter_eq. by destruct (heap w !! c).
  - cbn [heap set_heap afterInterest set_textureCache].
    rewrite list_lookup_alter_eq. by destruct (heap w !! c).
Qed.

(** *** After teardown *)

Lemma componentWillUnmount_run w :
  componentWillUnmount w
  = match canvas w with
    | Some c =>
        (tt, set_canvas None (set_heap (alter (onElement (withAttached false)) c (heap w)) w),
         [ElemRemoveChild c])
    | None => (tt, w, [])
    end.
Proof. unfold componentWillUnmount. run_prims. by destruct (canvas w). Qed.

Lemma perform_unmounted a w :
  runsUpdate a = true → canvas w = None →
  canvas (exec (perform a) w) = None
  ∧ heap (exec (perform a) w) = heap w
  ∧ ∀ c, Forall (fun e => touchesCanvas c e = false) (calls (perform a) w).
Proof.
  intros Ha Ec. destruct a; try done; cbn [perform].
  - unfold exec, calls, receiveProps, componentDidUpdate. run_prims.
    rewrite (updateCanvas_unmounted _ (set_props newProps w)) by (left; exact Ec).
    by repeat constructor.
  - unfold exec, calls. rewrite onTextureFetched_run. unfold exec, calls.
    rewrite (updateCanvas_unmounted _ w) by (left; exact Ec). cbn [fst snd].
    split_and!; [done..|]. intros c. rewrite app_nil_r.
    unfold sizeNotified. destruct (bool_decide _), texture; by repeat constructor.
Qed.

Lemma performAll_unmounted actions : ∀ w,
  Forall (fun a => runsUpdate a = true) actions → canvas w = None →
  canvas (exec (performAll actions) w) = None
  ∧ heap (exec (performAll actions) w) = heap w
  ∧ ∀ c, Forall (fun e => touchesCanvas c e = false) (calls (performAll actions) w).
Proof.
  induction actions as [|a rest IH]; intros w Hall Ec.
  - split_and!; [done..|]. intros c. constructor.
  - apply Forall_cons in Hall as [Ha Hrest]. cbn [performAll].
    destruct (perform_unmounted a w Ha Ec) as (E1 & E2 & E3).
    destruct (IH _ Hrest E1) as (F1 & F2 & F3).
    rewrite exec_bind, calls_bind. split_and!; [done|congruence|].
    intros c. apply Forall_app. auto.
Qed.

(** C9: [componentWillUnmount] takes the canvas element out of the document
    and clears [this.canvas].  From then on every run of [updateCanvas]
    returns at once, with no call made and the world as it was; a fetch that
    completes late changes nothing and calls nothing on the canvas; and
    through any sequence of prop updates and fetch completions the canvas
    objects stay as the teardown left them. *)
Theorem C9_no_canvas_operation_after_teardown w :
  canvas (exec componentWillUnmount w) = None
  ∧ (∀ c, canvas w = Some c →
       calls componentWillUnmount w = [ElemRemoveChild c]
       ∧ attached ∘ element <$> heap (exec componentWillUnmount w) !! c
         = (fun _ => false) <$> heap w !! c)
  ∧ (∀ prevProps,
       updateCanvas prevProps (exec componentWillUnmount w)
       = (tt, exec componentWillUnmount w, []))
  ∧ (∀ key texture,
       exec (onTextureFetched key texture) (exec componentWillUnmount w)
       = exec componentWillUnmount w
       ∧ ∀ c, Forall (fun e => touchesCanvas c e = false)
                (calls (onTextureFetched key texture) (exec componentWillUnmount w)))
  ∧ (∀ actions, Forall (fun a => runsUpdate a = true) actions →
       canvas (exec (performAll actions) (exec componentWillUnmount w)) = None
       ∧ heap (exec (performAll actions) (exec componentWillUnmount w))
         = heap (exec componentWillUnmount w)
       ∧ ∀ c, Forall (fun e => touchesCanvas c e = false)
                (calls (performAll actions) (exec componentWillUnmount w))).
Proof.
  assert (canvas (exec componentWillUnmount w) = None) as Enone.
  { unfold exec. rewrite componentWillUnmount_run. by destruct (canvas w) eqn:E. }
  split_and!.
  - done.
  - intros c Ec. unfold calls, exec. rewrite componentWillUnmount_run, Ec. cbn [fst snd].
    split; [done|]. cbn [heap set_canvas set_heap].
    rewrite list_lookup_alter_eq. by destruct (heap w !! c).
  - intros prevProps. apply updateCanvas_unmounted. by left.
  - intros key texture.
    destruct (perform_unmounted (TextureFetched key texture) _ eq_refl Enone) as (_ & _ & E3).
    split; [|exact E3].
    unfold exec at 1. rewrite onTextureFetched_run. cbn [fst snd].
    unfold exec at 1. by rewrite (updateCanvas_unmounted _ _ (or_introl Enone)).
  - intros actions Hall. by apply performAll_unmounted.
Qed.

(** C10: the error branch does not touch the deferred hide.  If a deferred
    hide is pending when an update finds an error for [imagePath], the
    timeout is still pending afterwards and the loading state is the error;
    when the timeout then becomes due, with no other input in between, it
    hides the element of the canvas it was created for, clears itself, and
    moves the loading state from the error to [loading], which the observer
    is told.  (The timeout found for [id] is the first pending one with this
    identifier, at position [i].) *)
Theorem C10_error_branch_keeps_deferred_hide prevProps w c tc err id i t :
  canvas w = Some c → textureCache w = Some tc →
  getTextureError
    (setImagesToFetch
       [Some (imagePath (props w)); imagePathNext (props w); imagePathPrev (props w)] tc)
    (imagePath (props w)) = Some err →
  deferredHideCanvasTimeout w = Some id →
  list_find (fun t => timeout_id t = id) (timers w) = Some (i, t) →
  deferredHideCanvasTimeout (exec (updateCanvas prevProps) w) = Some id
  ∧ timers (exec (updateCanvas prevProps) w) = timers w
  ∧ prevLoadingState (exec (updateCanvas prevProps) w) = Some (failed err)
  ∧ (∀ e, e ∈ calls (updateCanvas prevProps) w → ∀ id' delay,
       e ≠ ClearTimeout id' ∧ e ≠ SetTimeout id' delay)
  ∧ calls (fireTimeout id) (exec (updateCanvas prevProps) w)
    = [ElemSetDisplay (timeout_canvas t) "none"; OnLoadingStateChange loading]
  ∧ prevLoadingState (exec (fireTimeout id) (exec (updateCanvas prevProps) w)) = Some loading
  ∧ deferredHideCanvasTimeout (exec (fireTimeout id) (exec (updateCanvas prevProps) w)) = None
  ∧ (id ∉ pendingTimers (exec (fireTimeout id) (exec (updateCanvas prevProps) w))).
Proof.
  intros Ec Etc Eerr Hid Hfind.
  unfold calls at 1. unfold exec at 1 2 3 4 6 8 10.
  rewrite (updateCanvas_error _ _ _ _ _ Ec Etc Eerr). cbn [fst snd].
  set (w1 := set_prevLoadingState _ _).
  assert (list_find (fun t => timeout_id t = id) (timers w1) = Some (i, t)) as Hfind1 by done.
  unfold calls, exec. rewrite (fireTimeout_pending _ _ _ _ Hfind1). cbn [fst snd].
  split_and!; try done.
  - intros e He id' delay. unfold notified in He.
    destruct (bool_decide _); in_calls He; by subst.
  - unfold pendingTimers. cbn [timers set_prevLoadingState set_heap
      set_deferredHideCanvasTimeout set_timers].
    intros Hin. apply list_elem_of_fmap in Hin as (t' & -> & Hin).
    apply list_elem_of_filter in Hin as [Hne _]. done.
Qed.

(** *** The deferred hide *)

Lemma timersAgree_ext w w' :
  timers w' = timers w →
  deferredHideCanvasTimeout w' = deferredHideCanvasTimeout w →
  timersAgree w → timersAgree w'.
Proof. unfold timersAgree, pendingTimers. by intros -> ->. Qed.

Lemma timersAgree_cleared w id :
  timersAgree w → deferredHideCanvasTimeout w = Some id →
  timeout_id <$> filter (fun t => timeout_id t ≠ id) (timers w) = [].
Proof.
  unfold timersAgree, pendingTimers. intros Hagree E. rewrite E in Hagree.
  destruct (timers w) as [|t [|t' ts]]; [done| |done].
  cbn in Hagree. injection Hagree as Ht.
  rewrite filter_cons_False by (intros Hne; by apply Hne). done.
Qed.

Lemma timersAgree_shown c w : timersAgree w → timersAgree (shown c w).
Proof.
  intros Hagree. unfold timersAgree, pendingTimers, shown, cancelled.
  destruct (deferredHideCanvasTimeout w) as [id|] eqn:E;
    cbn [timers deferredHideCanvasTimeout set_prevLoadingState set_heap
         set_deferredHideCanvasTimeout set_timers].
  - by rewrite (timersAgree_cleared _ _ Hagree E).
  - unfold timersAgree, pendingTimers in Hagree. by rewrite Hagree, E.
Qed.

Lemma timersAgree_deferred c w : timersAgree w → timersAgree (deferred c w).
Proof.
  intros Hagree. unfold deferred.
  destruct (deferredHideCanvasTimeout w) as [id|] eqn:E; [done|].
  unfold timersAgree, pendingTimers in *. rewrite E in Hagree.
  cbn [timers deferredHideCanvasTimeout set_deferredHideCanvasTimeout set_timers
       set_nextTimerId].
  by rewrite fmap_app, Hagree.
Qed.

Lemma updateCanvas_timersAgree prevProps w :
  timersAgree w → timersAgree (exec (updateCanvas prevProps) w).
Proof.
  intros Hagree. unfold exec.
  destruct (updateCanvas_by_cases prevProps w)
    as [->|(c & tc & Ec & Etc & [[err ->]|(Eerr & [[_ ->]|[(_ & _ & ->)|(_ & _ & ->)]])])];
    cbn [fst snd]; try done.
  - by apply timersAgree_shown.
  - by apply timersAgree_deferred.
Qed.

Lemma componentDidMount_exec w :
  ∃ w0, timers w0 = timers w
        ∧ deferredHideCanvasTimeout w0 = deferredHideCanvasTimeout w
        ∧ exec componentDidMount w = exec (updateCanvas emptyProps) w0.
Proof.
  unfold exec, componentDidMount. run_prims.
  rewrite (run_eta (updateCanvas emptyProps)). cbn [fst snd].
  eexists. split_and!; [| |reflexivity]; done.
Qed.

Lemma fireTimeout_timersAgree id w :
  timersAgree w → timersAgree (exec (fireTimeout id) w).
Proof.
  intros Hagree. unfold exec.
  destruct (list_find (fun t => timeout_id t = id) (timers w)) as [[i t]|] eqn:Hfind.
  - rewrite (fireTimeout_pending _ _ _ _ Hfind). cbn [fst snd].
    apply list_find_Some in Hfind as (Hi & Ht & _).
    unfold timersAgree, pendingTimers in *.
    cbn [timers deferredHideCanvasTimeout set_prevLoadingState set_heap
         set_deferredHideCanvasTimeout set_timers].
    destruct (deferredHideCanvasTimeout w) as [id0|] eqn:E.
    + destruct (timers w) as [|t0 [|t1 ts]]; [done| |done].
      cbn in Hagree. injection Hagree as Ht0.
      destruct i; [|done]. cbn in Hi. injection Hi as ->.
      rewrite filter_cons_False by (intros Hne; by apply Hne). done.
    + by destruct (timers w).
  - by rewrite (fireTimeout_not_pending _ _ Hfind).
Qed.

Lemma perform_timersAgree a w :
  timersAgree w → timersAgree (exec (perform a) w).
Proof.
  intros Hagree. destruct a; cbn [perform].
  - destruct (componentDidMount_exec w) as (w0 & Et & Ed & ->).
    apply updateCanvas_timersAgree. by apply (timersAgree_ext w).
  - unfold exec, receiveProps, componentDidUpdate. run_prims.
    rewrite (run_eta (updateCanvas _)). cbn [fst snd].
    apply updateCanvas_timersAgree. by apply (timersAgree_ext w).
  - unfold exec. rewrite componentWillUnmount_run.
    destruct (canvas w); cbn [fst snd]; [|done]. by apply (timersAgree_ext w).
  - unfold exec at 1. rewrite onTextureFetched_run. cbn [fst snd].
    by apply updateCanvas_timersAgree.
  - by apply fireTimeout_timersAgree.
  - unfold exec. run_prims. by apply (timersAgree_ext w).
Qed.

Lemma performAll_timersAgree actions : ∀ w,
  timersAgree w → timersAgree (exec (performAll actions) w).
Proof.
  induction actions as [|a rest IH]; intros w Hagree; [done|].
  cbn [performAll]. rewrite exec_bind. by apply IH, perform_timersAgree.
Qed.

Lemma applyCalls_no_timer c prevProps w id delay :
  SetTimeout id delay ∉ applyCalls c prevProps w.
Proof.
  unfold applyCalls, sizeNotified, pushMetricsCalls. intros Hin.
  repeat case_match; in_calls Hin; done.
Qed.

Lemma showable_applied c prevProps w tc :
  showable c (applied c prevProps (afterInterest w tc)) = false ↔
  cameraMetrics (props w) = None
  ∨ from_option isValid false
      (heap (exec (updateCanvas_apply c prevProps) (afterInterest w tc)) !! c) = false.
Proof.
  rewrite updateCanvas_apply_exec. unfold showable.
  cbn [props applied afterInterest set_textureCache set_canvasImagePath set_heap].
  destruct (cameraMetrics (props w)).
  - split; [by right|by intros [?|?]].
  - split; [by left|done].
Qed.

(** C5: at most one deferred hide is ever pending.  Through every sequence
    of lifecycle calls, callbacks and cache progress from construction on,
    the pending timeouts are exactly the one the component remembers, so
    there is never more than one; an update starts a timeout exactly when
    [canvasChanged] was set, the show condition fails and no deferred hide is
    remembered, and then it is one timeout of 100 ms; a timeout that fires
    clears itself, hides the canvas element and sets the loading state to
    [loading]; and showing the canvas with no deferred hide pending clears
    nothing. *)
Theorem C5_at_most_one_deferred_hide :
  (∀ p (actions : list (Action Cache)),
     pendingTimers (exec (performAll actions) (construct p))
     = option_list (deferredHideCanvasTimeout (exec (performAll actions) (construct p)))
     ∧ (length (timers (exec (performAll actions) (construct p))) ≤ 1)%nat)
  ∧ (∀ prevProps w id delay,
       SetTimeout id delay ∈ calls (updateCanvas prevProps) w ↔
       ∃ c tc,
         canvas w = Some c ∧ textureCache w = Some tc
         ∧ getTextureError
             (setImagesToFetch
                [Some (imagePath (props w)); imagePathNext (props w); imagePathPrev (props w)]
                tc)
             (imagePath (props w)) = None
         ∧ result (updateCanvas_apply c prevProps) (afterInterest w tc) = true
         ∧ (cameraMetrics (props w) = None
            ∨ from_option isValid false
                (heap (exec (updateCanvas_apply c prevProps) (afterInterest w tc)) !! c)
              = false)
         ∧ deferredHideCanvasTimeout w = None
         ∧ id = nextTimerId w ∧ delay = 100
         ∧ timers (exec (updateCanvas prevProps) w)
           = timers w ++ [mkTimeout (nextTimerId w) c 100]
         ∧ deferredHideCanvasTimeout (exec (updateCanvas prevProps) w)
           = Some (nextTimerId w))
  ∧ (∀ w id i t,
       list_find (fun t => timeout_id t = id) (timers w) = Some (i, t) →
       deferredHideCanvasTimeout (exec (fireTimeout id) w) = None
       ∧ (id ∉ pendingTimers (exec (fireTimeout id) w))
       ∧ calls (fireTimeout id) w
         = ElemSetDisplay (timeout_canvas t) "none"
           :: (if bool_decide (prevLoadingState w = Some loading) then []
               else [OnLoadingStateChange loading])
       ∧ heap (exec (fireTimeout id) w)
         = alter (onElement (withDisplay "none")) (timeout_canvas t) (heap w)
       ∧ prevLoadingState (exec (fireTimeout id) w) = Some loading)
  ∧ (∀ c w, deferredHideCanvasTimeout w = None →
       timers (exec (showCanvas c) w) = timers w
       ∧ deferredHideCanvasTimeout (exec (showCanvas c) w) = None
       ∧ ∀ id, ClearTimeout id ∉ calls (showCanvas c) w).
Proof.
  split_and!.
  - intros p actions.
    assert (timersAgree (exec (performAll actions) (construct p))) as Hagree
      by (by apply performAll_timersAgree).
    split; [exact Hagree|].
    unfold timersAgree, pendingTimers in Hagree.
    apply (f_equal length) in Hagree. rewrite length_fmap in Hagree.
    rewrite Hagree. destruct (deferredHideCanvasTimeout _); cbn; lia.
  - intros prevProps w id delay. unfold calls, exec. split.
    + intros Hin.
      destruct (updateCanvas_by_cases prevProps w)
        as [E|(c & tc & Ec & Etc & [[err E]|(Eerr & [[Hch E]|[(Hch & Hshow & E)|(Hch & Hshow & E)]])])];
        rewrite E in Hin |- *; cbn [fst snd] in Hin |- *.
      * in_calls Hin.
      * unfold notified in Hin. destruct (bool_decide _); in_calls Hin; done.
      * in_calls Hin; try done. by apply applyCalls_no_timer in Hin.
      * unfold askValid, cancelCalls, notified in Hin.
        apply elem_of_app in Hin as [Hin|Hin]; [in_calls Hin; done|].
        apply elem_of_app in Hin as [Hin|Hin]; [by apply applyCalls_no_timer in Hin|].
        repeat case_match; in_calls Hin; done.
      * exists c, tc. rewrite updateCanvas_apply_result.
        apply showable_applied in Hshow.
        apply elem_of_app in Hin as [Hin|Hin]; [in_calls Hin; done|].
        apply elem_of_app in Hin as [Hin|Hin]; [by apply applyCalls_no_timer in Hin|].
        unfold askValid, deferCalls, deferred in *.
        cbn [deferredHideCanvasTimeout nextTimerId timers applied afterInterest
             set_textureCache set_canvasImagePath set_heap] in *.
        destruct (deferredHideCanvasTimeout w) eqn:Ed;
          [repeat case_match; in_calls Hin; done|].
        assert (SetTimeout id delay = SetTimeout (nextTimerId w) 100) as Heq
          by (repeat case_match; in_calls Hin; done).
        injection Heq as -> ->. by split_and!.
    + intros (c & tc & Ec & Etc & Eerr & Hch & Hshow & Ed & -> & -> & _).
      rewrite updateCanvas_apply_result in Hch. apply showable_applied in Hshow.
      rewrite (updateCanvas_deferred _ _ _ _ Ec Etc Eerr Hch Hshow). cbn [fst snd].
      unfold deferCalls.
      cbn [deferredHideCanvasTimeout nextTimerId applied afterInterest
           set_textureCache set_canvasImagePath set_heap].
      rewrite Ed. rewrite !elem_of_app, list_elem_of_singleton. auto.
  - intros w id i t Hfind. unfold calls, exec.
    rewrite (fireTimeout_pending _ _ _ _ Hfind). cbn [fst snd].
    split_and!; try done.
    unfold pendingTimers. cbn [timers set_prevLoadingState set_heap
      set_deferredHideCanvasTimeout set_timers].
    intros Hin. apply list_elem_of_fmap in Hin as (t' & -> & Hin).
    apply list_elem_of_filter in Hin as [Hne _]. done.
  - intros c w Ed. unfold calls, exec. rewrite showCanvas_run. cbn [fst snd].
    unfold shown, cancelled, cancelCalls, notified. rewrite Ed.
    split_and!; try done.
    intros id Hin. destruct (bool_decide _); in_calls Hin; done.
Qed.

(** *** Mounting *)

Lemma componentDidMount_run w :
  componentDidMount w
  = (tt, exec (updateCanvas emptyProps) (mountedWorld w),
     mountCalls w ++ calls (updateCanvas emptyProps) (mountedWorld w)).
Proof.
  unfold componentDidMount, mountedWorld, mountCalls. run_prims.
  rewrite (run_eta (updateCanvas emptyProps)). by destruct (result _ _).
Qed.

Lemma canvasChangedBy_emptyProps w : canvasChangedBy emptyProps w = true.
Proof.
  unfold canvasChangedBy, viewChanged. cbn [emptyProps prev_mode].
  rewrite bool_decide_eq_false_2 by done. cbn.
  by destruct (differentString _ _).
Qed.

Lemma applyToCanvas_display prevProps w cv :
  style_display (element (applyToCanvas prevProps w cv)) = style_display (element cv).
Proof. unfold applyToCanvas, pushMetrics. by repeat (simpl; case_match). Qed.

Lemma applyToCanvas_element_frame prevProps w cv :
  className (element (applyToCanvas prevProps w cv)) = className (element cv)
  ∧ attached (element (applyToCanvas prevProps w cv)) = attached (element cv).
Proof. unfold applyToCanvas, pushMetrics. by repeat (simpl; case_match). Qed.

(** X1: mounting a new component makes the canvas and the cache, names,
    hides and attaches the element, and runs a first update that always
    counts as changed.  So the component leaves [componentDidMount] in one of
    three states: the error of the current image reported and nothing
    pending; the canvas shown and [done] reported; or the element still
    hidden, nothing reported, and one deferred hide of 100 ms pending. *)
Theorem X1_mount_reports_shows_or_defers (p : Props) :
  let w' := exec componentDidMount (construct p) in
  let tc := setImagesToFetch (imagesToFetch p) (newTextureCache 0%nat) in
  canvas w' = Some 0%nat
  ∧ textureCache w' = Some tc
  ∧ ∃ cv, heap w' = [cv]
      ∧ className (element cv) = "PhotoLayer-canvas"
      ∧ attached (element cv) = true
      ∧ match getTextureError tc (imagePath p) with
        | Some err =>
            prevLoadingState w' = Some (failed err)
            ∧ style_display (element cv) = "none"
            ∧ timers w' = [] ∧ deferredHideCanvasTimeout w' = None
        | None =>
            (prevLoadingState w' = Some done
             ∧ style_display (element cv) = "block"
             ∧ timers w' = [] ∧ deferredHideCanvasTimeout w' = None
             ∧ is_Some (cameraMetrics p))
            ∨ (prevLoadingState w' = None
               ∧ style_display (element cv) = "none"
               ∧ timers w' = [mkTimeout 1 0 100]
               ∧ deferredHideCanvasTimeout w' = Some 1%nat)
        end.
Proof.
  intros w' tc. subst w'.
  set (w0 := mountedWorld (construct p)).
  assert (exec componentDidMount (construct p) = exec (updateCanvas emptyProps) w0) as ->.
  { unfold exec at 1. by rewrite componentDidMount_run. }
  assert (canvas w0 = Some 0%nat) as Ec by done.
  assert (textureCache w0 = Some (newTextureCache 0%nat)) as Etc by done.
  assert (props w0 = p) as Ep by done.
  destruct (getTextureError tc (imagePath p)) as [err|] eqn:Eerr.
  - assert (getTextureError (setImagesToFetch (imagesToFetch (props w0)) (newTextureCache 0%nat))
              (imagePath (props w0)) = Some err) as Eerr0 by (by rewrite Ep).
    assert (exec (updateCanvas emptyProps) w0
            = set_prevLoadingState (Some (failed err))
                (hidden 0%nat (afterInterest w0 (newTextureCache 0%nat)))) as ->.
    { unfold exec. by rewrite (updateCanvas_error _ _ _ _ _ Ec Etc Eerr0). }
    split_and!; [done|reflexivity|].
    eexists. split_and!; [reflexivity|done..].
  - assert (getTextureError (setImagesToFetch (imagesToFetch (props w0)) (newTextureCache 0%nat))
              (imagePath (props w0)) = None) as Eerr0 by (by rewrite Ep).
    pose proof (canvasChangedBy_emptyProps (afterInterest w0 (newTextureCache 0%nat))) as Hch.
    destruct (showable 0%nat (applied 0%nat emptyProps (afterInterest w0 (newTextureCache 0%nat))))
      eqn:Hshow.
    + assert (exec (updateCanvas emptyProps) w0
              = shown 0%nat (applied 0%nat emptyProps (afterInterest w0 (newTextureCache 0%nat))))
        as ->.
      { unfold exec. by rewrite (updateCanvas_shown _ _ _ _ Ec Etc Eerr0 Hch Hshow). }
      split_and!; [done|reflexivity|].
      eexists. split_and!; [reflexivity| | |].
      * cbn. apply applyToCanvas_element_frame.
      * cbn. apply applyToCanvas_element_frame.
      * left. split_and!; try done.
        unfold showable in Hshow. cbn [props applied afterInterest set_textureCache
          set_canvasImagePath set_heap] in Hshow. rewrite Ep in Hshow.
        by destruct (cameraMetrics p).
    + assert (exec (updateCanvas emptyProps) w0
              = deferred 0%nat (applied 0%nat emptyProps (afterInterest w0 (newTextureCache 0%nat))))
        as ->.
      { unfold exec. by rewrite (updateCanvas_deferred _ _ _ _ Ec Etc Eerr0 Hch Hshow). }
      split_and!; [done|reflexivity|].
      eexists. split_and!; [reflexivity| | |].
      * cbn. apply applyToCanvas_element_frame.
      * cbn. apply applyToCanvas_element_frame.
      * right. split_and!; try done. cbn. by rewrite applyToCanvas_display.
Qed.

(** *** What the loading-state observer sees *)

Lemma receiveProps_run (newProps : Props) w :
  receiveProps newProps w
  = (tt, exec (updateCanvas (asPartial (props w))) (set_props newProps w),
     calls (updateCanvas (asPartial (props w))) (set_props newProps w)).
Proof.
  unfold receiveProps, componentDidUpdate. run_prims.
  rewrite (run_eta (updateCanvas _)). by destruct (result _ _).
Qed.

Lemma loadingChanges_app es1 es2 :
  loadingChanges (es1 ++ es2) = loadingChanges es1 ++ loadingChanges es2.
Proof. apply omap_app. Qed.

Lemma loadingChanges_notified w s :
  loadingChanges (notified w s)
  = if bool_decide (prevLoadingState w = Some s) then [] else [s].
Proof. unfold notified. by destruct (bool_decide _). Qed.

Lemma loadingChanges_applyCalls c prevProps w :
  loadingChanges (applyCalls c prevProps w) = [].
Proof.
  unfold applyCalls, sizeNotified, pushMetricsCalls.
  by repeat (simpl; case_match).
Qed.


Lemma loadingChanges_sizeNotified texture : loadingChanges (sizeNotified texture) = [].
Proof. by destruct texture. Qed.

Lemma noRepeat_app last states1 states2 :
  noRepeat last states1 → noRepeat (lastReported last states1) states2 →
  noRepeat last (states1 ++ states2).
Proof.
  revert last. induction states1 as [|s rest IH]; intros last H1 H2; [done|].
  destruct H1 as [Hne Hrest]. split; [done|]. by apply IH.
Qed.

Lemma reportsChain_trans w es1 w1 es2 w2 :
  reportsChain w es1 w1 → reportsChain w1 es2 w2 → reportsChain w (es1 ++ es2) w2.
Proof.
  intros [H1 E1] [H2 E2]. unfold reportsChain, lastReported in *.
  rewrite loadingChanges_app, foldl_app, <- E1. split; [|done].
  apply noRepeat_app; [done|]. unfold lastReported. by rewrite <- E1.
Qed.

Lemma reportsChain_silent w es w' :
  loadingChanges es = [] → prevLoadingState w' = prevLoadingState w →
  reportsChain w es w'.
Proof. intros E1 E2. unfold reportsChain. by rewrite E1, E2. Qed.

Lemma reportsChain_set w es w' s :
  loadingChanges es = loadingChanges (notified w s) → prevLoadingState w' = Some s →
  reportsChain w es w'.
Proof.
  intros E1 E2. unfold reportsChain. rewrite E1, E2, loadingChanges_notified.
  case_bool_decide as E; cbn; [done|]. by split.
Qed.

Lemma updateCanvas_reportsChain prevProps w :
  reportsChain w (calls (updateCanvas prevProps) w) (exec (updateCanvas prevProps) w).
Proof.
  unfold calls, exec.
  destruct (updateCanvas_by_cases prevProps w)
    as [->|(c & tc & Ec & Etc & [[err ->]|(Eerr & [[_ ->]|[(_ & _ & ->)|(_ & _ & ->)]])])];
    cbn [fst snd].
  - by apply reportsChain_silent.
  - by apply (reportsChain_set _ _ _ (failed err)).
  - apply reportsChain_silent; [|done].
    by rewrite loadingChanges_app, loadingChanges_applyCalls.
  - apply (reportsChain_set _ _ _ done); [|done].
    rewrite !loadingChanges_app, loadingChanges_applyCalls.
    unfold askValid, cancelCalls. by repeat (simpl; case_match).
  - apply reportsChain_silent.
    + rewrite !loadingChanges_app, loadingChanges_applyCalls.
      unfold askValid, deferCalls. by repeat (simpl; case_match).
    + unfold deferred. by repeat (simpl; case_match).
Qed.

Lemma perform_reportsChain (a : Action Cache) w :
  reportsChain w (calls (perform a) w) (exec (perform a) w).
Proof.
  destruct a; cbn [perform]; unfold calls, exec.
  - rewrite componentDidMount_run. cbn [fst snd].
    apply (reportsChain_trans _ _ (mountedWorld w)).
    + by apply reportsChain_silent.
    + apply updateCanvas_reportsChain.
  - rewrite receiveProps_run. cbn [fst snd].
    apply (updateCanvas_reportsChain _ (set_props newProps w)).
  - rewrite componentWillUnmount_run. destruct (canvas w); by apply reportsChain_silent.
  - rewrite onTextureFetched_run. cbn [fst snd].
    apply (reportsChain_trans _ _ w); [|apply updateCanvas_reportsChain].
    apply reportsChain_silent; [|done].
    destruct (bool_decide _); [apply loadingChanges_sizeNotified|done].
  - destruct (list_find (fun t => timeout_id t = id) (timers w)) as [[i t]|] eqn:Hfind.
    + rewrite (fireTimeout_pending _ _ _ _ Hfind). cbn [fst snd].
      by apply (reportsChain_set _ _ _ loading).
    + rewrite (fireTimeout_not_pending _ _ Hfind). by apply reportsChain_silent.
  - run_prims. by apply reportsChain_silent.
Qed.

(** X2: through any sequence of lifecycle calls, fetch completions,
    timeouts and cache progress, from any state of the component,
    [onLoadingStateChange] is never called with the state it was called with
    last, and the state the component remembers is the one it reported last
    (or the one remembered before, when it reported none). *)
Theorem X2_observer_never_told_a_state_twice (actions : list (Action Cache)) : ∀ w,
  noRepeat (prevLoadingState w) (loadingChanges (calls (performAll actions) w))
  ∧ prevLoadingState (exec (performAll actions) w)
    = lastReported (prevLoadingState w) (loadingChanges (calls (performAll actions) w)).
Proof.
  induction actions as [|a rest IH]; intros w; [done|].
  cbn [performAll]. rewrite calls_bind, exec_bind.
  apply (reportsChain_trans _ _ (exec (perform a) w)).
  - apply perform_reportsChain.
  - apply IH.
Qed.

(** *** Visible exactly when done *)

Lemma updateCanvas_canvas prevProps w :
  canvas (exec (updateCanvas prevProps) w) = canvas w.
Proof.
  unfold exec.
  destruct (updateCanvas_by_cases prevProps w)
    as [->|(c & tc & Ec & Etc & [[err ->]|(Eerr & [[_ ->]|[(_ & _ & ->)|(_ & _ & ->)]])])];
    cbn [fst snd]; try done.
  - unfold shown, cancelled. by repeat (simpl; case_match).
  - unfold deferred. by repeat (simpl; case_match).
Qed.







Lemma applyCalls_no_clear c prevProps w id :
  ClearTimeout id ∉ applyCalls c prevProps w.
Proof.
  unfold applyCalls, sizeNotified, pushMetricsCalls. intros Hin.
  repeat case_match; in_calls Hin; done.
Qed.

(** *** Callbacks that arrive after teardown *)

(** X4: [componentWillUnmount] does not clear the deferred hide.  A timeout
    that is pending at teardown is still pending afterwards; when it fires it
    writes [display = 'none'] to the element of the canvas it was created
    for, detached by then, and reports [loading] to the observer of the
    unmounted component unless that was the last state reported. *)
Theorem X4_unmount_leaves_deferred_hide_pending w c id i t :
  canvas w = Some c →
  list_find (fun t => timeout_id t = id) (timers w) = Some (i, t) →
  timers (exec componentWillUnmount w) = timers w
  ∧ deferredHideCanvasTimeout (exec componentWillUnmount w) = deferredHideCanvasTimeout w
  ∧ calls (fireTimeout id) (exec componentWillUnmount w)
    = ElemSetDisplay (timeout_canvas t) "none"
      :: (if bool_decide (prevLoadingState w = Some loading) then []
          else [OnLoadingStateChange loading])
  ∧ prevLoadingState (exec (fireTimeout id) (exec componentWillUnmount w)) = Some loading
  ∧ (timeout_canvas t = c → ∀ cv, heap w !! c = Some cv →
       heap (exec (fireTimeout id) (exec componentWillUnmount w)) !! c
       = Some (onElement (withDisplay "none") (onElement (withAttached false) cv))).
Proof.
  intros Ec Hfind.
  assert (exec componentWillUnmount w
          = set_canvas None
              (set_heap (alter (onElement (withAttached false)) c (heap w)) w)) as ->.
  { unfold exec. by rewrite componentWillUnmount_run, Ec. }
  set (w1 := set_canvas None _).
  assert (list_find (fun t => timeout_id t = id) (timers w1) = Some (i, t)) as Hfind1 by done.
  unfold calls, exec. rewrite (fireTimeout_pending _ _ _ _ Hfind1). cbn [fst snd].
  split_and!; try done.
  intros -> cv Hcv. cbn. by rewrite !list_lookup_alter_eq, Hcv.
Qed.

(** X5: a fetch that completes after teardown still calls [onTextureChange]
    when it delivers a texture for the current [imagePath]; that is the only
    call it makes, and the component is left as the teardown left it. *)
Theorem X5_completion_after_unmount_still_reports_size w key texture :
  calls (onTextureFetched key texture) (exec componentWillUnmount w)
  = match texture with
    | Some t =>
        if bool_decide (key = imagePath (props w))
        then [OnTextureChange (mkSize (tex_width t) (tex_height t))] else []
    | None => []
    end
  ∧ exec (onTextureFetched key texture) (exec componentWillUnmount w)
    = exec componentWillUnmount w.
Proof.
  assert (canvas (exec componentWillUnmount w) = None) as Enone.
  { unfold exec. rewrite componentWillUnmount_run. by destruct (canvas w) eqn:E. }
  assert (props (exec componentWillUnmount w) = props w) as Ep.
  { unfold exec. rewrite componentWillUnmount_run. by destruct (canvas w). }
  remember (exec componentWillUnmount w) as w1 eqn:Hw1.
  unfold calls, exec. rewrite onTextureFetched_run. cbn [fst snd].
  unfold calls, exec.
  rewrite (updateCanvas_unmounted _ _ (or_introl Enone)). cbn [fst snd].
  rewrite app_nil_r, Ep. split; [|done].
  unfold sizeNotified. destruct texture; [done|]. by destruct (bool_decide _).
Qed.

(** *** Updates that change nothing, or only what they must *)

Lemma rerun_unchanged w :
  canvasImagePath w = Some (imagePath (props w)) →
  (∀ c tc, applyCalls c (asPartial (props w)) (afterInterest w tc) = [])
  ∧ (∀ c tc, applied c (asPartial (props w)) (afterInterest w tc) = afterInterest w tc)
  ∧ (∀ tc, canvasChangedBy (asPartial (props w)) (afterInterest w tc) = false).
Proof.
  intros Hkey.
  assert (differentString (imagePath (props w)) (canvasImagePath w) = false) as Ed.
  { unfold differentString. by rewrite bool_decide_eq_true_2. }
  assert (differentObject (bodySize (props w)) (bodySize (props w)) = false) as Eb.
  { unfold differentObject. by rewrite bool_decide_eq_true_2. }
  split_and!.
  - intros c tc. unfold applyCalls, viewChanged.
    cbn [props canvasImagePath afterInterest set_textureCache asPartial
         prev_mode prev_bodySize prev_cameraMetrics differentFromOptional].
    by rewrite Ed, Eb, differentNullable_same, bool_decide_eq_true_2.
  - intros c tc. unfold applied, appliedImagePath, applyToCanvas, viewChanged.
    cbn [props canvasImagePath heap afterInterest set_textureCache asPartial
         prev_mode prev_bodySize prev_cameraMetrics differentFromOptional].
    rewrite Ed, Eb, differentNullable_same, bool_decide_eq_true_2 by done. cbn.
    rewrite list_alter_id by done. by destruct w.
  - intros tc. unfold canvasChangedBy, viewChanged.
    cbn [props canvasImagePath afterInterest set_textureCache asPartial
         prev_mode prev_cameraMetrics].
    by rewrite Ed, differentNullable_same, bool_decide_eq_true_2.
Qed.

(** X6: once the canvas holds the texture of [imagePath] and the cache has
    no error for it, a re-run of the update with unchanged props asks the
    cache its two questions and does nothing else; so the completion of a
    fetch for a neighbour leaves canvas, timers and loading state alone. *)
Theorem X6_rerun_on_shown_image_only_asks_cache w c tc key texture :
  canvas w = Some c → textureCache w = Some tc →
  getTextureError
    (setImagesToFetch
       [Some (imagePath (props w)); imagePathNext (props w); imagePathPrev (props w)] tc)
    (imagePath (props w)) = None →
  canvasImagePath w = Some (imagePath (props w)) →
  key ≠ imagePath (props w) →
  onTextureFetched key texture w
  = (tt,
     set_textureCache
       (Some (setImagesToFetch
          [Some (imagePath (props w)); imagePathNext (props w); imagePathPrev (props w)] tc))
       w,
     [CacheSetImagesToFetch
        [Some (imagePath (props w)); imagePathNext (props w); imagePathPrev (props w)];
      CacheGetTextureError (imagePath (props w))])
  ∧ updateCanvas (asPartial (props w)) w = onTextureFetched key texture w.
Proof.
  intros Ec Etc Eerr Hkey Hne.
  destruct (rerun_unchanged w Hkey) as (Hcalls & Happlied & Hch).
  assert (updateCanvas (asPartial (props w)) w
          = (tt, afterInterest w tc,
             [CacheSetImagesToFetch (imagesToFetch (props w));
              CacheGetTextureError (imagePath (props w))])) as Hrun.
  { rewrite (updateCanvas_unchanged _ _ _ _ Ec Etc Eerr (Hch tc)).
    by rewrite Hcalls, Happlied. }
  rewrite onTextureFetched_run. unfold exec, calls. rewrite Hrun. cbn [fst snd].
  by rewrite bool_decide_eq_false_2.
Qed.

(** X7: an update never postpones or doubles a pending deferred hide.  With
    a hide pending, no update sets a timeout; it either leaves the pending
    one exactly as it is, or clears it in the very run that redraws and
    reports [done]. *)
Theorem X7_pending_hide_is_kept_or_cleared prevProps w id :
  deferredHideCanvasTimeout w = Some id →
  (∀ id' delay, SetTimeout id' delay ∉ calls (updateCanvas prevProps) w)
  ∧ ((timers (exec (updateCanvas prevProps) w) = timers w
      ∧ deferredHideCanvasTimeout (exec (updateCanvas prevProps) w) = Some id
      ∧ ∀ id', ClearTimeout id' ∉ calls (updateCanvas prevProps) w)
     ∨ (timers (exec (updateCanvas prevProps) w)
        = filter (fun t => timeout_id t ≠ id) (timers w)
        ∧ deferredHideCanvasTimeout (exec (updateCanvas prevProps) w) = None
        ∧ ClearTimeout id ∈ calls (updateCanvas prevProps) w
        ∧ (∃ c, canvas w = Some c ∧ CanvasUpdate c ∈ calls (updateCanvas prevProps) w)
        ∧ prevLoadingState (exec (updateCanvas prevProps) w) = Some done)).
Proof.
  intros Ed. unfold calls, exec.
  destruct (updateCanvas_by_cases prevProps w)
    as [->|(c & tc & Ec & Etc & [[err ->]|(Eerr & [[_ ->]|[(_ & _ & ->)|(_ & _ & ->)]])])];
    cbn [fst snd].
  - split; [intros id' delay Hin; in_calls Hin|].
    left. split_and!; [done..|]. intros id' Hin. in_calls Hin.
  - split.
    + intros id' delay Hin. unfold notified in Hin.
      destruct (bool_decide _); in_calls Hin.
    + left. split_and!; [done..|]. intros id' Hin. unfold notified in Hin.
      destruct (bool_decide _); in_calls Hin.
  - split.
    + intros id' delay Hin. in_calls Hin. by apply applyCalls_no_timer in Hin.
    + left. split_and!; [done..|]. intros id' Hin. in_calls Hin.
      by apply applyCalls_no_clear in Hin.
  - unfold shown, cancelled, cancelCalls, askValid, notified.
    cbn [deferredHideCanvasTimeout prevLoadingState timers props applied afterInterest
         set_textureCache set_canvasImagePath set_heap]. rewrite Ed.
    split.
    + intros id' delay Hin.
      apply elem_of_app in Hin as [Hin|Hin]; [in_calls Hin|].
      apply elem_of_app in Hin as [Hin|Hin]; [by apply applyCalls_no_timer in Hin|].
      repeat case_match; in_calls Hin.
    + right. split_and!; [done|done| | |done].
      * rewrite !elem_of_app. right. right. right. left. by apply list_elem_of_singleton.
      * exists c. split; [done|]. rewrite !elem_of_app. do 4 right. left.
        apply elem_of_cons. by left.
  - unfold deferred, deferCalls, askValid.
    cbn [deferredHideCanvasTimeout prevLoadingState timers props applied afterInterest
         set_textureCache set_canvasImagePath set_heap]. rewrite Ed.
    split.
    + intros id' delay Hin.
      apply elem_of_app in Hin as [Hin|Hin]; [in_calls Hin|].
      apply elem_of_app in Hin as [Hin|Hin]; [by apply applyCalls_no_timer in Hin|].
      repeat case_match; in_calls Hin.
    + left. split_and!; [done..|]. intros id' Hin.
      apply elem_of_app in Hin as [Hin|Hin]; [in_calls Hin|].
      apply elem_of_app in Hin as [Hin|Hin]; [by apply applyCalls_no_clear in Hin|].
      repeat case_match; in_calls Hin.
Qed.

(** *** Moving between photos *)


(** X9: the error branch leaves the key of the bound texture as it was.  So
    when the photo that fails is left again for the one whose texture is
    still on the canvas, with mode, body size and camera metrics the same
    objects as before, the update finds nothing changed: it asks the cache
    its two questions, the element stays hidden and the loading state stays
    the error of the photo that failed. *)
Theorem X9_error_outlives_return_to_bound_photo prevProps w c tc err (backProps : Props) :
  canvas w = Some c → textureCache w = Some tc →
  getTextureError (setImagesToFetch (imagesToFetch (props w)) tc) (imagePath (props w))
    = Some err →
  canvasImagePath w = Some (imagePath backProps) →
  mode backProps = mode (props w) →
  differentObject (bodySize backProps) (bodySize (props w)) = false →
  differentNullable (cameraMetrics backProps) (Some (cameraMetrics (props w))) = false →
  getTextureError
    (setImagesToFetch (imagesToFetch backProps)
       (setImagesToFetch (imagesToFetch (props w)) tc))
    (imagePath backProps) = None →
  calls (receiveProps backProps) (exec (updateCanvas prevProps) w)
  = [CacheSetImagesToFetch (imagesToFetch backProps);
     CacheGetTextureError (imagePath backProps)]
  ∧ prevLoadingState (exec (receiveProps backProps) (exec (updateCanvas prevProps) w))
    = Some (failed err)
  ∧ (style_display ∘ element
       <$> heap (exec (receiveProps backProps) (exec (updateCanvas prevProps) w)) !! c
     = (fun _ => "none") <$> heap w !! c).
Proof.
  intros Ec Etc Eerr Hkey Hmode Hbody Hcm Eback.
  assert (exec (updateCanvas prevProps) w
          = set_prevLoadingState (Some (failed err)) (hidden c (afterInterest w tc))) as ->.
  { unfold exec. by rewrite (updateCanvas_error _ _ _ _ _ Ec Etc Eerr). }
  set (w1 := set_prevLoadingState _ _).
  set (w2 := set_props backProps w1).
  set (tc1 := setImagesToFetch (imagesToFetch (props w)) tc) in *.
  assert (canvas w2 = Some c) as Ec2 by done.
  assert (textureCache w2 = Some tc1) as Etc2 by done.
  assert (getTextureError (setImagesToFetch (imagesToFetch (props w2)) tc1)
            (imagePath (props w2)) = None) as Eerr2 by done.
  assert (differentString (imagePath backProps) (canvasImagePath w) = false) as Ed.
  { unfold differentString. by rewrite bool_decide_eq_true_2. }
  assert (viewChanged (asPartial (props w)) backProps = false) as Hview.
  { unfold viewChanged. cbn [asPartial prev_mode prev_cameraMetrics].
    by rewrite Hmode, bool_decide_eq_true_2, Hcm. }
  assert (canvasChangedBy (asPartial (props w1)) (afterInterest w2 tc1) = false) as Hch.
  { unfold canvasChangedBy. cbn. by rewrite Ed, Hview, Hcm. }
  assert (updateCanvas (asPartial (props w1)) w2
          = (tt, afterInterest w2 tc1,
             [CacheSetImagesToFetch (imagesToFetch backProps);
              CacheGetTextureError (imagePath backProps)])) as Hrun.
  { rewrite (updateCanvas_unchanged _ _ _ _ Ec2 Etc2 Eerr2 Hch).
    assert (applyCalls c (asPartial (props w1)) (afterInterest w2 tc1) = []) as ->.
    { unfold applyCalls. cbn. by rewrite Ed, Hview, Hcm, Hbody. }
    assert (applied c (asPartial (props w1)) (afterInterest w2 tc1) = afterInterest w2 tc1) as ->.
    { unfold applied, appliedImagePath, applyToCanvas. cbn.
      rewrite Ed, Hview, Hcm, Hbody. cbn. by rewrite list_alter_id. }
    done. }
  unfold calls, exec. rewrite receiveProps_run. cbn [fst snd]. unfold calls, exec.
  fold w2. rewrite Hrun. cbn [fst snd].
  split_and!; [done..|].
  cbn. rewrite list_lookup_alter_eq. by destruct (heap w !! c).
Qed.

Lemma updateCanvas_unmounted_inv prevProps w :
  updateCanvas prevProps w = (tt, w, []) → canvas w = None ∨ textureCache w = None.
Proof.
  intros E. destruct (canvas w) as [c|] eqn:Ec; [|by left].
  destruct (textureCache w) as [tc|] eqn:Etc; [|by right].
  exfalso.
  destruct (getTextureError (setImagesToFetch (imagesToFetch (props w)) tc)
              (imagePath (props w))) as [err|] eqn:Eerr.
  - rewrite (updateCanvas_error _ _ _ _ _ Ec Etc Eerr) in E. discriminate E.
  - rewrite (updateCanvas_run _ _ _ _ Ec Etc Eerr) in E. discriminate E.
Qed.

(** *** What an update never does *)

Lemma applyCalls_no_redraw c prevProps w c' :
  (CanvasUpdate c' ∉ applyCalls c prevProps w)
  ∧ (ElemSetDisplay c' "block" ∉ applyCalls c prevProps w).
Proof.
  unfold applyCalls, sizeNotified, pushMetricsCalls.
  split; intros Hin; repeat case_match; in_calls Hin; done.
Qed.

(** X10: an update redraws the canvas only to show it.  [update()] is
    called in an update exactly when the canvas and the cache exist, the
    cache has no error for [imagePath], [canvasChanged] was set, the camera
    metrics are there and the canvas says it is valid; and the element is set
    to [display = 'block'] in exactly the same updates. *)
Theorem X10_redraws_exactly_when_showing prevProps w c :
  (CanvasUpdate c ∈ calls (updateCanvas prevProps) w ↔
   ∃ tc, canvas w = Some c ∧ textureCache w = Some tc
     ∧ getTextureError
         (setImagesToFetch
            [Some (imagePath (props w)); imagePathNext (props w); imagePathPrev (props w)] tc)
         (imagePath (props w)) = None
     ∧ result (updateCanvas_apply c prevProps) (afterInterest w tc) = true
     ∧ is_Some (cameraMetrics (props w))
     ∧ from_option isValid false
         (heap (exec (updateCanvas_apply c prevProps) (afterInterest w tc)) !! c) = true)
  ∧ (ElemSetDisplay c "block" ∈ calls (updateCanvas prevProps) w ↔
     CanvasUpdate c ∈ calls (updateCanvas prevProps) w).
Proof.
  assert (∀ c0 tc, showable c0 (applied c0 prevProps (afterInterest w tc)) = true ↔
            is_Some (cameraMetrics (props w))
            ∧ from_option isValid false
                (heap (exec (updateCanvas_apply c0 prevProps) (afterInterest w tc)) !! c0)
              = true) as Hshowable.
  { intros c0 tc. rewrite updateCanvas_apply_exec. unfold showable.
    cbn [props applied afterInterest set_textureCache set_canvasImagePath set_heap].
    destruct (cameraMetrics (props w)).
    - split; [by split|by intros [_ ?]].
    - split; [done|]. by intros [[? ?] _]. }
  unfold calls.
  assert (canvas w = None ∨ textureCache w = None →
          ¬ ∃ tc, canvas w = Some c ∧ textureCache w = Some tc
              ∧ getTextureError
                  (setImagesToFetch
                     [Some (imagePath (props w)); imagePathNext (props w);
                      imagePathPrev (props w)] tc)
                  (imagePath (props w)) = None
              ∧ result (updateCanvas_apply c prevProps) (afterInterest w tc) = true
              ∧ is_Some (cameraMetrics (props w))
              ∧ from_option isValid false
                  (heap (exec (updateCanvas_apply c prevProps) (afterInterest w tc)) !! c)
                = true) as Hunmounted.
  { intros [E|E] (tc' & Ec' & Etc' & _); congruence. }
  destruct (canvas w) as [c0|] eqn:Ec.
  2:{ rewrite (updateCanvas_unmounted prevProps w) by (left; exact Ec). cbn [fst snd].
      split; [split|split; intros Hin; in_calls Hin].
      - intros Hin. in_calls Hin.
      - intros Hex. destruct (Hunmounted (or_introl eq_refl) Hex). }
  destruct (textureCache w) as [tc|] eqn:Etc.
  2:{ rewrite (updateCanvas_unmounted prevProps w) by (right; exact Etc). cbn [fst snd].
      split; [split|split; intros Hin; in_calls Hin].
      - intros Hin. in_calls Hin.
      - intros Hex. destruct (Hunmounted (or_intror eq_refl) Hex). }
  clear Hunmounted.
  destruct (getTextureError (setImagesToFetch (imagesToFetch (props w)) tc)
              (imagePath (props w))) as [err|] eqn:Eerr.
  { rewrite (updateCanvas_error _ _ _ _ _ Ec Etc Eerr). cbn [fst snd]. unfold notified.
    split.
    - split.
      + intros Hin. destruct (bool_decide _); in_calls Hin.
      + intros (tc' & Ec' & Etc' & Eerr' & _). injection Etc' as <-.
        unfold imagesToFetch in Eerr. congruence.
    - split; intros Hin; destruct (bool_decide _); in_calls Hin. }
  destruct (canvasChangedBy prevProps (afterInterest w tc)) eqn:Hch;
    [destruct (showable c0 (applied c0 prevProps (afterInterest w tc))) eqn:Hshow|];
    [rewrite (updateCanvas_shown _ _ _ _ Ec Etc Eerr Hch Hshow)
    |rewrite (updateCanvas_deferred _ _ _ _ Ec Etc Eerr Hch Hshow)
    |rewrite (updateCanvas_unchanged _ _ _ _ Ec Etc Eerr Hch)];
    cbn [fst snd]; [| |].
  3:{ split.
      - split.
        + intros Hin. in_calls Hin. by apply applyCalls_no_redraw in Hin.
        + intros (tc' & Ec' & Etc' & _ & Hch' & _).
          injection Ec' as ->. injection Etc' as <-.
          rewrite updateCanvas_apply_result in Hch'. congruence.
      - split; intros Hin; in_calls Hin; by apply applyCalls_no_redraw in Hin. }
  - assert (c = c0 ↔ CanvasUpdate c ∈
              [CacheSetImagesToFetch (imagesToFetch (props w));
               CacheGetTextureError (imagePath (props w))]
              ++ applyCalls c0 prevProps (afterInterest w tc)
              ++ askValid c0 (applied c0 prevProps (afterInterest w tc))
              ++ cancelCalls (applied c0 prevProps (afterInterest w tc))
              ++ [CanvasUpdate c0; ElemSetDisplay c0 "block"]
              ++ notified (applied c0 prevProps (afterInterest w tc)) done) as Hupd.
    { split.
      - intros ->. rewrite !elem_of_app. do 4 right. left. apply elem_of_cons. by left.
      - intros Hin.
        apply elem_of_app in Hin as [Hin|Hin]; [in_calls Hin|].
        apply elem_of_app in Hin as [Hin|Hin]; [by apply applyCalls_no_redraw in Hin|].
        unfold askValid, cancelCalls, notified in Hin.
        repeat case_match; in_calls Hin; congruence. }
    assert (c = c0 ↔ ElemSetDisplay c "block" ∈
              [CacheSetImagesToFetch (imagesToFetch (props w));
               CacheGetTextureError (imagePath (props w))]
              ++ applyCalls c0 prevProps (afterInterest w tc)
              ++ askValid c0 (applied c0 prevProps (afterInterest w tc))
              ++ cancelCalls (applied c0 prevProps (afterInterest w tc))
              ++ [CanvasUpdate c0; ElemSetDisplay c0 "block"]
              ++ notified (applied c0 prevProps (afterInterest w tc)) done) as Hblock.
    { split.
      - intros ->. rewrite !elem_of_app. do 4 right. left.
        apply elem_of_cons. right. apply elem_of_cons. by left.
      - intros Hin.
        apply elem_of_app in Hin as [Hin|Hin]; [in_calls Hin|].
        apply elem_of_app in Hin as [Hin|Hin]; [by apply applyCalls_no_redraw in Hin|].
        unfold askValid, cancelCalls, notified in Hin.
        repeat case_match; in_calls Hin; congruence. }
    split.
    + rewrite <- Hupd. split.
      * intros ->. exists tc. apply Hshowable in Hshow as [? ?].
        rewrite updateCanvas_apply_result. by split_and!.
      * intros (tc' & Ec' & _). congruence.
    + by rewrite <- Hupd, <- Hblock.
  - assert (∀ e, (e = CanvasUpdate c ∨ e = ElemSetDisplay c "block") →
              e ∉ [CacheSetImagesToFetch (imagesToFetch (props w));
                   CacheGetTextureError (imagePath (props w))]
                  ++ applyCalls c0 prevProps (afterInterest w tc)
                  ++ askValid c0 (applied c0 prevProps (afterInterest w tc))
                  ++ deferCalls (applied c0 prevProps (afterInterest w tc))) as Hnone.
    { intros e He Hin.
      apply elem_of_app in Hin as [Hin|Hin]; [destruct He as [-> | ->]; in_calls Hin|].
      apply elem_of_app in Hin as [Hin|Hin];
        [destruct He as [-> | ->]; by apply applyCalls_no_redraw in Hin|].
      unfold askValid, deferCalls in Hin.
      destruct He as [-> | ->]; repeat case_match; in_calls Hin. }
    split.
    + split.
      * intros Hin. exfalso. apply (Hnone _ (or_introl eq_refl) Hin).
      * intros (tc' & Ec' & Etc' & _ & _ & Hm & Hv).
        injection Ec' as ->. injection Etc' as <-.
        assert (showable c (applied c prevProps (afterInterest w tc)) = true) as Hs
          by (by apply Hshowable).
        congruence.
    + split; intros Hin; exfalso.
      * apply (Hnone _ (or_intror eq_refl) Hin).
      * apply (Hnone _ (or_introl eq_refl) Hin).
Qed.




End Properties.

(** ** Properties of the key bindings of PictureDetail *)

Section KeyBindings.

Import PictureDetail.

Lemma filter_keeps_all {A} (P : A → Prop) `{∀ x, Decision (P x)} (l : list A) :
  Forall P l → filter P l = l.
Proof.
  induction 1 as [|x l Hx Hl IH]; [done|].
  rewrite filter_cons_True by done. by rewrite IH.
Qed.

Lemma wellFormed_no_fresh d :
  wellFormed d → Forall (fun l' => fn l' ≠ functions d) (keyup d).
Proof.
  unfold wellFormed. intros Hwf.
  eapply Forall_impl; [exact Hwf|]. intros l Hl. cbn in Hl. lia.
Qed.

Lemma componentWillUnmount_keyup this d :
  wellFormed d →
  componentWillUnmount this d = mkDocument (keyup d) (S (functions d)).
Proof.
  intros Hwf. unfold componentWillUnmount, bind, removeEventListener. cbn.
  by rewrite filter_keeps_all by (by apply wellFormed_no_fresh).
Qed.

Lemma componentDidMount_keyup this d :
  wellFormed d →
  componentDidMount this d
  = mkDocument (keyup d ++ [mkListener (functions d) this]) (S (functions d)).
Proof.
  intros Hwf. unfold componentDidMount, bind, addEventListener. cbn.
  rewrite bool_decide_eq_false_2; [done|].
  intros Hex. apply Exists_exists in Hex as (l & Hin & Hl).
  apply wellFormed_no_fresh in Hwf. rewrite Forall_forall in Hwf. by apply (Hwf l).
Qed.

Lemma visit_keyup this d :
  wellFormed d →
  componentWillUnmount this (componentDidMount this d)
  = mkDocument (keyup d ++ [mkListener (functions d) this]) (S (S (functions d)))
  ∧ wellFormed (componentWillUnmount this (componentDidMount this d)).
Proof.
  intros Hwf. rewrite (componentDidMount_keyup _ _ Hwf).
  assert (wellFormed (mkDocument (keyup d ++ [mkListener (functions d) this])
                        (S (functions d)))) as Hwf1.
  { unfold wellFormed in *. cbn. apply Forall_app. split.
    - eapply Forall_impl; [exact Hwf|]. intros l Hl. cbn in Hl. lia.
    - repeat constructor. }
  rewrite (componentWillUnmount_keyup _ _ Hwf1). cbn. split; [done|].
  unfold wellFormed in *. cbn in *.
  eapply Forall_impl; [exact Hwf1|]. intros l Hl. cbn in Hl. lia.
Qed.

(** X12: [componentWillUnmount] removes no listener.  The function it hands
    to [removeEventListener] is made by a new [bind], so it is none of the
    functions the document knows: in a document whose listeners were all made
    before, the [keyup] listeners are the same after the teardown, the one
    [componentDidMount] added among them. *)
Theorem X12_unmount_removes_no_listener (this : nat) (d : Document) :
  wellFormed d →
  keyup (componentWillUnmount this d) = keyup d
  ∧ keyup (componentWillUnmount this (componentDidMount this d))
    = keyup d ++ [mkListener (functions d) this]
  ∧ wellFormed (componentWillUnmount this (componentDidMount this d)).
Proof.
  intros Hwf. split_and!.
  - by rewrite (componentWillUnmount_keyup _ _ Hwf).
  - by rewrite (proj1 (visit_keyup this d Hwf)).
  - apply (visit_keyup this d Hwf).
Qed.

Lemma visits_keyup (components : list nat) : ∀ d,
  wellFormed d →
  self <$> keyup (visits components d) = (self <$> keyup d) ++ components
  ∧ wellFormed (visits components d).
Proof.
  induction components as [|this rest IH]; intros d Hwf.
  - cbn. by rewrite app_nil_r.
  - change (visits (this :: rest) d)
      with (visits rest (componentWillUnmount this (componentDidMount this d))).
    destruct (visit_keyup this d Hwf) as [E Hwf1].
    destruct (IH _ Hwf1) as [IH1 IH2].
    split; [|done]. rewrite IH1, E. cbn. rewrite fmap_app. cbn.
    by rewrite <- app_assoc.
Qed.

Lemma dispatchKeyup_escape d :
  dispatchKeyup 27 d = (fun this => SetCurrent this None) <$> (self <$> keyup d).
Proof.
  unfold dispatchKeyup. induction (keyup d) as [|l ls IH]; [done|].
  rewrite bind_cons, IH. done.
Qed.

(** X13: the listeners of detail views that were shown and closed pile up.
    After one component after the other was mounted and unmounted, the
    document holds one more [keyup] listener for each of them, in that
    order, and a single Escape calls [setCurrent(null)] on the props of every
    one of them, after the calls of the listeners that were there before. *)
Theorem X13_listeners_pile_up (components : list nat) (d : Document) :
  wellFormed d →
  self <$> keyup (visits components d) = (self <$> keyup d) ++ components
  ∧ length (keyup (visits components d)) = (length (keyup d) + length components)%nat
  ∧ dispatchKeyup 27 (visits components d)
    = dispatchKeyup 27 d ++ ((fun this => SetCurrent this None) <$> components).
Proof.
  intros Hwf. destruct (visits_keyup components d Hwf) as [E _].
  split_and!.
  - done.
  - apply (f_equal length) in E. by rewrite length_app, !length_fmap in E.
  - by rewrite !dispatchKeyup_escape, E, fmap_app.
Qed.

End KeyBindings.

(** ** Properties of the props of the ExportDialog stories *)

Section StoryProps.

Context {PhotoExportOptions : Type}.
Context (createDefaultExportOptions : PhotoExportOptions).
Context (withFolderPath : string -> PhotoExportOptions -> PhotoExportOptions).

Implicit Types (context : TestContext PhotoExportOptions).

Local Abbreviation defaultProps :=
  (createDefaultProps createDefaultExportOptions withFolderPath).

(** X14: the stories keep the export options the dialog reports.  Options
    passed to [onExportOptionsChange] are the [exportOptions] of the next
    props, and making props never replaces stored options; the default
    options with the fixed folder path are stored only by the first call on a
    context without options, after which making props again gives the same
    props and leaves the context alone; each report asks for one render. *)
Theorem X14_story_keeps_reported_options context (options : PhotoExportOptions) :
  exportOptions (fst (defaultProps (onExportOptionsChange options context))) = options
  ∧ snd (defaultProps (onExportOptionsChange options context))
    = onExportOptionsChange options context
  ∧ forcedUpdates (onExportOptionsChange options context) = S (forcedUpdates context)
  ∧ (state_exportOptions context = None →
       exportOptions (fst (defaultProps context))
       = withFolderPath "/Users/me/Temp/vacation-photos" createDefaultExportOptions
       ∧ state_exportOptions (snd (defaultProps context))
         = Some (withFolderPath "/Users/me/Temp/vacation-photos" createDefaultExportOptions))
  ∧ defaultProps (snd (defaultProps context))
    = (fst (defaultProps context), snd (defaultProps context)).
Proof.
  split_and!; [done..| |].
  - intros E. unfold createDefaultProps. by rewrite E.
  - unfold createDefaultProps.
    destruct (state_exportOptions context) eqn:E; cbn; rewrite ?E; cbn; by rewrite ?E.
Qed.

(** X15: toggling the description flips the [showRemoveInfoDesc] prop,
    starting from [false] on a new context; toggling twice gives the props
    there were before, with two renders asked for; and the toggle leaves the
    export options alone. *)
Theorem X15_story_toggle_flips_and_restores context :
  showRemoveInfoDesc (fst (defaultProps (onToggleShowRemoveInfoDesc context)))
  = negb (showRemoveInfoDesc (fst (defaultProps context)))
  ∧ fst (defaultProps (onToggleShowRemoveInfoDesc (onToggleShowRemoveInfoDesc context)))
    = fst (defaultProps context)
  ∧ forcedUpdates (onToggleShowRemoveInfoDesc (onToggleShowRemoveInfoDesc context))
    = S (S (forcedUpdates context))
  ∧ exportOptions (fst (defaultProps (onToggleShowRemoveInfoDesc context)))
    = exportOptions (fst (defaultProps context))
  ∧ (state_showRemoveInfoDesc context = None →
       showRemoveInfoDesc (fst (defaultProps context)) = false).
Proof.
  destruct context as [[stored|] [[|]|] renders]; split_and!; try done.
Qed.

End StoryProps.

(** ** The theorems on a running component *)

Section Running.

#[local] Existing Instances Demo.cacheOps Demo.canvasOps.

(** With all three paths present the component asks for
    [imagePath, imagePathNext, imagePathPrev], not for previous, current,
    next; and a missing previous path is passed on as null, not dropped. *)
Lemma C1_interest_order_counterexample :
  ¬ (∃ rest, calls (updateCanvas emptyProps) (Demo.mounted Demo.someProps [])
             = CacheSetImagesToFetch (specifiedInterest Demo.someProps) :: rest)
  ∧ ¬ (∃ rest, calls (updateCanvas emptyProps) (Demo.mounted Demo.firstProps [])
               = CacheSetImagesToFetch (specifiedInterest Demo.firstProps) :: rest).
Proof.
  split; intros [rest E]; vm_compute in E; discriminate E.
Qed.

Lemma C1_declares_interest_first_witness :
  ∃ rest, calls (updateCanvas emptyProps) (Demo.mounted Demo.someProps [])
          = CacheSetImagesToFetch [Some "/b.jpg"; Some "/c.jpg"; Some "/a.jpg"] :: rest.
Proof.
  exact (proj1 (proj1 (C1_declares_interest_first emptyProps
                         (Demo.mounted Demo.someProps [])) 0%nat [] eq_refl eq_refl)).
Defined.

Lemma C2_error_hides_canvas_and_returns_witness :
  calls (updateCanvas emptyProps)
    (Demo.mounted Demo.someProps [("/b.jpg", inr decode_failure)])
  = [CacheSetImagesToFetch [Some "/b.jpg"; Some "/c.jpg"; Some "/a.jpg"];
     CacheGetTextureError "/b.jpg";
     ElemSetDisplay 0 "none";
     OnLoadingStateChange (failed decode_failure)].
Proof.
  exact (proj1 (C2_error_hides_canvas_and_returns emptyProps
                  (Demo.mounted Demo.someProps [("/b.jpg", inr decode_failure)])
                  0%nat [("/b.jpg", inr decode_failure)] decode_failure
                  eq_refl eq_refl eq_refl)).
Defined.

Lemma C3_rebinds_base_texture_witness :
  canvasImagePath
    (exec (updateCanvas emptyProps)
       (Demo.mounted Demo.someProps [("/b.jpg", inl Demo.texture)]))
  = Some "/b.jpg".
Proof.
  refine (proj1 (proj2 (C3_rebinds_base_texture emptyProps
                          (Demo.mounted Demo.someProps [("/b.jpg", inl Demo.texture)])
                          0%nat [("/b.jpg", inl Demo.texture)]
                          eq_refl eq_refl eq_refl _))).
  discriminate.
Defined.

Lemma C4_shows_changed_valid_canvas_witness :
  prevLoadingState
    (exec (updateCanvas emptyProps)
       (Demo.mounted Demo.someProps [("/b.jpg", inl Demo.texture)]))
  = Some done.
Proof.
  refine (proj2 (proj2 (proj2 (proj2 (proj2
            (C4_shows_changed_valid_canvas emptyProps
               (Demo.mounted Demo.someProps [("/b.jpg", inl Demo.texture)])
               0%nat [("/b.jpg", inl Demo.texture)]
               eq_refl eq_refl eq_refl eq_refl _ eq_refl)))))).
  by eexists.
Defined.

Lemma C5_at_most_one_deferred_hide_witness :
  deferredHideCanvasTimeout (exec (fireTimeout 1) (Demo.hiding Demo.someProps [])) = None
  ∧ timers (exec (showCanvas 0) (Demo.mounted Demo.someProps []))
    = timers (Demo.mounted Demo.someProps []).
Proof.
  split.
  - exact (proj1 (proj1 (proj2 (proj2 C5_at_most_one_deferred_hide))
                    (Demo.hiding Demo.someProps []) 1%nat 0%nat (mkTimeout 1 0 100)
                    eq_refl)).
  - exact (proj1 (proj2 (proj2 (proj2 C5_at_most_one_deferred_hide))
                    0%nat (Demo.mounted Demo.someProps []) eq_refl)).
Defined.

Lemma C6_loading_state_notifications_deduplicated_witness :
  ∃ more, calls (setLoadingStates [loading; done]) (construct (Cache:=Demo.Cache) Demo.someProps)
          = OnLoadingStateChange loading :: more.
Proof.
  exact (proj2 (proj2 (proj2 (C6_loading_state_notifications_deduplicated
                                (construct (Cache:=Demo.Cache) Demo.someProps) [])))
           loading [done] eq_refl).
Defined.

Lemma C7_fetch_completion_reruns_update_witness :
  calls (onTextureFetched "/c.jpg" (Some Demo.texture))
    (Demo.showing Demo.someProps [("/b.jpg", inl Demo.texture)])
  = calls (updateCanvas (asPartial Demo.someProps))
      (Demo.showing Demo.someProps [("/b.jpg", inl Demo.texture)]).
Proof.
  refine (proj1 (proj2 (proj2 (C7_fetch_completion_reruns_update "/c.jpg" (Some Demo.texture)
            (Demo.showing Demo.someProps [("/b.jpg", inl Demo.texture)])))) _).
  left. discriminate.
Defined.

Lemma C8_body_size_only_resizes_element_witness :
  calls (updateCanvas (asPartial Demo.someProps))
    (Demo.showing Demo.resizedProps [("/b.jpg", inl Demo.texture)])
  = [CacheSetImagesToFetch [Some "/b.jpg"; Some "/c.jpg"; Some "/a.jpg"];
     CacheGetTextureError "/b.jpg";
     ElemSetWidth 0 (px 1024);
     ElemSetHeight 0 (px 768)].
Proof.
  exact (proj1 (C8_body_size_only_resizes_element (asPartial Demo.someProps)
                  (Demo.showing Demo.resizedProps [("/b.jpg", inl Demo.texture)])
                  0%nat [("/b.jpg", inl Demo.texture)]
                  eq_refl eq_refl eq_refl eq_refl eq_refl eq_refl eq_refl)).
Defined.

Lemma C9_no_canvas_operation_after_teardown_witness :
  heap (exec (performAll [Update Demo.resizedProps;
                          TextureFetched "/b.jpg" (Some Demo.texture)])
          (exec componentWillUnmount
             (Demo.showing Demo.someProps [("/b.jpg", inl Demo.texture)])))
  = heap (exec componentWillUnmount
            (Demo.showing Demo.someProps [("/b.jpg", inl Demo.texture)])).
Proof.
  refine (proj1 (proj2 (proj2 (proj2 (proj2 (proj2
            (C9_no_canvas_operation_after_teardown
               (Demo.showing Demo.someProps [("/b.jpg", inl Demo.texture)])))))
            [Update Demo.resizedProps; TextureFetched "/b.jpg" (Some Demo.texture)] _))).
  repeat constructor.
Defined.

Lemma C10_error_branch_keeps_deferred_hide_witness :
  calls (fireTimeout 1)
    (exec (updateCanvas emptyProps)
       (Demo.hiding Demo.someProps [("/b.jpg", inr decode_failure)]))
  = [ElemSetDisplay 0 "none"; OnLoadingStateChange loading].
Proof.
  exact (proj1 (proj2 (proj2 (proj2 (proj2
           (C10_error_branch_keeps_deferred_hide emptyProps
              (Demo.hiding Demo.someProps [("/b.jpg", inr decode_failure)])
              0%nat [("/b.jpg", inr decode_failure)] decode_failure 1%nat 0%nat
              (mkTimeout 1 0 100) eq_refl eq_refl eq_refl eq_refl eq_refl)))))).
Defined.

End Running.

(** ** Further theorems on running code *)

Section RunningMore.

#[local] Existing Instances Demo.cacheOps Demo.canvasOps.


Lemma X4_unmount_leaves_deferred_hide_pending_witness :
  calls (fireTimeout 1) (exec componentWillUnmount (Demo.hiding Demo.someProps []))
  = [ElemSetDisplay 0 "none"; OnLoadingStateChange loading].
Proof.
  exact (proj1 (proj2 (proj2
           (X4_unmount_leaves_deferred_hide_pending (Demo.hiding Demo.someProps [])
              0%nat 1%nat 0%nat (mkTimeout 1 0 100) eq_refl eq_refl)))).
Defined.

Lemma X6_rerun_on_shown_image_only_asks_cache_witness :
  onTextureFetched "/c.jpg" (Some Demo.texture)
    (Demo.showing Demo.someProps [("/b.jpg", inl Demo.texture)])
  = (tt, Demo.showing Demo.someProps [("/b.jpg", inl Demo.texture)],
     [CacheSetImagesToFetch [Some "/b.jpg"; Some "/c.jpg"; Some "/a.jpg"];
      CacheGetTextureError "/b.jpg"]).
Proof.
  refine (proj1 (X6_rerun_on_shown_image_only_asks_cache
                   (Demo.showing Demo.someProps [("/b.jpg", inl Demo.texture)])
                   0%nat [("/b.jpg", inl Demo.texture)] "/c.jpg" (Some Demo.texture)
                   eq_refl eq_refl eq_refl eq_refl _)).
  discriminate.
Defined.

Lemma X7_pending_hide_is_kept_or_cleared_witness :
  timers (exec (updateCanvas emptyProps) (Demo.hiding Demo.someProps []))
  = [mkTimeout 1 0 100].
Proof.
  destruct (proj2 (X7_pending_hide_is_kept_or_cleared emptyProps
                     (Demo.hiding Demo.someProps []) 1%nat eq_refl))
    as [(E & _)|(_ & E & _)].
  - exact E.
  - vm_compute in E. discriminate E.
Defined.


Lemma X9_error_outlives_return_to_bound_photo_witness :
  calls (receiveProps Cases.previousProps)
    (exec (updateCanvas (asPartial Cases.previousProps)) Cases.leaving)
  = [CacheSetImagesToFetch [Some "/a.jpg"; Some "/b.jpg"; None];
     CacheGetTextureError "/a.jpg"]
  ∧ prevLoadingState
      (exec (receiveProps Cases.previousProps)
         (exec (updateCanvas (asPartial Cases.previousProps)) Cases.leaving))
    = Some (failed decode_failure).
Proof.
  pose proof (X9_error_outlives_return_to_bound_photo (asPartial Cases.previousProps)
                Cases.leaving 0%nat [("/b.jpg", inr decode_failure)] decode_failure
                Cases.previousProps eq_refl eq_refl eq_refl eq_refl eq_refl eq_refl eq_refl
                eq_refl) as (E1 & E2 & _).
  exact (conj E1 E2).
Defined.


Lemma X12_unmount_removes_no_listener_witness :
  PictureDetail.keyup
    (PictureDetail.componentWillUnmount 5 (PictureDetail.componentDidMount 5 Cases.document))
  = [PictureDetail.mkListener 0 4; PictureDetail.mkListener 1 5].
Proof.
  refine (proj1 (proj2 (X12_unmount_removes_no_listener 5%nat Cases.document _))).
  repeat constructor.
Defined.

Lemma X13_listeners_pile_up_witness :
  PictureDetail.dispatchKeyup 27 (PictureDetail.visits [5; 6]%nat Cases.document)
  = [PictureDetail.SetCurrent 4 None; PictureDetail.SetCurrent 5 None;
     PictureDetail.SetCurrent 6 None].
Proof.
  refine (proj2 (proj2 (X13_listeners_pile_up [5; 6]%nat Cases.document _))).
  repeat constructor.
Defined.

Lemma X14_story_keeps_reported_options_witness :
  exportOptions
    (fst (createDefaultProps "default" (fun folder _ => folder) (mkTestContext None None 0)))
  = "/Users/me/Temp/vacation-photos".
Proof.
  exact (proj1 (proj1 (proj2 (proj2 (proj2
           (X14_story_keeps_reported_options "default" (fun folder _ => folder)
              (mkTestContext None None 0) "other")))) eq_refl)).
Defined.

End RunningMore.
